(** * PaddleOCR to ONNX converter script ([main.py]): model and properties

    The script is orchestration glue around library calls: [pathlib],
    [tarfile], [subprocess.run] and [onnx].  The calls are taken as the
    operations of a [Platform]; the Python functions of [main.py] are written
    over them in an exception-and-trace monad, one definition per function,
    in the order of the source.  The model covers a call of [main()]; the
    module-level set-up of lines 11-39 (creating the two output directories,
    configuring logging) has happened before. *)

From Stdlib Require Import String Ascii List ZArith QArith Qabs Lia Lqa Bool DecimalString.
From Stdlib Require DecimalFacts DecimalPos.
Import ListNotations.
Local Open Scope string_scope.
Local Open Scope Z_scope.

(** ** Strings *)

(** The newline character of the f-strings. *)
Definition nl : string := String (ascii_of_nat 10) EmptyString.

(** ['=' * 60] and the like. *)
Fixpoint str_mul (c : ascii) (n : nat) : string :=
  match n with
  | O => EmptyString
  | S k => String c (str_mul c k)
  end.

(** [str(n)] for a Python int. *)
Definition str_int (n : Z) : string := NilZero.string_of_int (Z.to_int n).

(** [s.rfind(c)]: index of the last occurrence, [None] for Python's -1. *)
Fixpoint rfind (c : ascii) (s : string) : option nat :=
  match s with
  | EmptyString => None
  | String a t =>
      match rfind c t with
      | Some i => Some (S i)
      | None => if Ascii.eqb a c then Some O else None
      end
  end.

(** Texts are held as their UTF-8 bytes.  [chars s] cuts a text into its
    characters, each with the bytes that encode it: the first byte tells how
    many follow. *)
Fixpoint chars (s : string) : list string :=
  match s with
  | EmptyString => []
  | String a t =>
      let n := nat_of_ascii a in
      if (n <? 192)%nat then String a EmptyString :: chars t
      else if (n <? 224)%nat then
        match t with
        | String b u => String a (String b EmptyString) :: chars u
        | _ => [s]
        end
      else if (n <? 240)%nat then
        match t with
        | String b (String c u) =>
            String a (String b (String c EmptyString)) :: chars u
        | _ => [s]
        end
      else
        match t with
        | String b (String c (String d u)) =>
            String a (String b (String c (String d EmptyString))) :: chars u
        | _ => [s]
        end
  end.

(** [''.join(l)] *)
Definition join (l : list string) : string := fold_right append EmptyString l.

Definition byte (a : ascii) : N := N_of_ascii a.

Definition continuation (a : ascii) : bool :=
  ((128 <=? byte a) && (byte a <=? 191))%N.

(** [ord(c)] of a character from its UTF-8 bytes; [None] for bytes that
    encode no character. *)
Definition code_point (c : string) : option N :=
  match c with
  | String a EmptyString =>
      if (byte a <? 128)%N then Some (byte a) else None
  | String a (String b EmptyString) =>
      if ((194 <=? byte a) && (byte a <=? 223))%N && continuation b
      then Some ((byte a - 192) * 64 + (byte b - 128))%N
      else None
  | String a (String b (String c EmptyString)) =>
      let cp := ((byte a - 224) * 4096 + (byte b - 128) * 64 + (byte c - 128))%N in
      if ((224 <=? byte a) && (byte a <=? 239))%N && continuation b && continuation c
         && (2048 <=? cp)%N
      then Some cp
      else None
  | String a (String b (String c (String d EmptyString))) =>
      let cp := ((byte a - 240) * 262144 + (byte b - 128) * 4096
                 + (byte c - 128) * 64 + (byte d - 128))%N in
      if ((240 <=? byte a) && (byte a <=? 244))%N && continuation b && continuation c
         && continuation d && (65536 <=? cp)%N && (cp <=? 1114111)%N
      then Some cp
      else None
  | _ => None
  end.

(** [c.isspace()], which is what [str.strip()] removes: the characters
    U+0009..U+000D, U+001C..U+0020, U+0085, U+00A0, U+1680, U+2000..U+200A,
    U+2028, U+2029, U+202F, U+205F and U+3000. *)
Definition isspace (c : string) : bool :=
  match code_point c with
  | Some cp =>
      ((9 <=? cp) && (cp <=? 13) || (28 <=? cp) && (cp <=? 32)
       || (cp =? 133) || (cp =? 160) || (cp =? 5760)
       || (8192 <=? cp) && (cp <=? 8202)
       || (cp =? 8232) || (cp =? 8233) || (cp =? 8239) || (cp =? 8287)
       || (cp =? 12288))%N
  | None => false
  end.

(** [s.lstrip()] and [s.rstrip()] on the characters of a text. *)
Fixpoint lstrip_chars (l : list string) : list string :=
  match l with
  | [] => []
  | c :: rest => if isspace c then lstrip_chars rest else l
  end.

Definition rstrip_chars (l : list string) : list string :=
  rev (lstrip_chars (rev l)).

(** [s.strip()]. *)
Definition strip (s : string) : string :=
  join (rstrip_chars (lstrip_chars (chars s))).

(** [sub in s]. *)
Definition contains (s sub : string) : Prop :=
  exists pre post, s = pre ++ sub ++ post.

(** ** [pathlib] paths

    A path is its anchor ([""] for a relative path, ["/"] for an absolute
    one) and the list of its components. *)
Record Path : Type := mkPath { anchor : string; parts : list string }.

(** [p.name]: the final component, empty when there is none. *)
Definition name (p : Path) : string := last (parts p) "".

(** [p.stem]: the final component without its last suffix: [name[:i]] when
    [0 < i < len(name) - 1] for [i = name.rfind('.')], else [name]. *)
Definition stem (p : Path) : string :=
  let nm := name p in
  match rfind "." nm with
  | Some i =>
      if (0 <? i)%nat && (i <? String.length nm - 1)%nat
      then substring 0 i nm
      else nm
  | None => nm
  end.

(** [p / c] for a single component [c] (a file name or a stem, which hold no
    separator); the empty component and ["."] leave the path as it is. *)
Definition joinpath (p : Path) (c : string) : Path :=
  if String.eqb c "" || String.eqb c "." then p
  else mkPath (anchor p) (parts p ++ [c]).

Declare Scope path_scope.
Delimit Scope path_scope with path.
Notation "p // c" := (joinpath p c) (at level 40, left associativity) : path_scope.
Local Open Scope path_scope.

(** [str(p)]. *)
Definition path_str (p : Path) : string :=
  match anchor p, parts p with
  | EmptyString, [] => "."
  | a, ps => a ++ String.concat "/" ps
  end.

(** ** Exceptions, process results, models *)

(** An instance of a subclass of [Exception]: its class name and [str(e)]. *)
Record PyException : Type := mkExc { exc_class : string; exc_str : string }.

Definition RuntimeError (msg : string) : PyException := mkExc "RuntimeError" msg.

(** [subprocess.CompletedProcess] with captured text output. *)
Record CompletedProcess : Type := mkCompleted {
  returncode : Z;
  stdout : string;
  stderr : string
}.

(** [onnx.ValueInfoProto], [onnx.GraphProto] and [onnx.ModelProto], as far as
    the script reads them. *)
Record ValueInfoProto (T : Type) : Type := mkValueInfo {
  vi_name : string;
  vi_type : T
}.
Arguments mkValueInfo {T} _ _.
Arguments vi_name {T} _.
Arguments vi_type {T} _.

Record GraphProto (T : Type) : Type := mkGraph {
  input : list (ValueInfoProto T);
  output : list (ValueInfoProto T)
}.
Arguments mkGraph {T} _ _.
Arguments input {T} _.
Arguments output {T} _.

Record ModelProto (T : Type) : Type := mkModel { graph : GraphProto T }.
Arguments mkModel {T} _.
Arguments graph {T} _.

(** ** Floats: [int / int] and [format(x, ".2f")]

    A float is kept as the dyadic rational [mantissa * 2 ^ exponent] it
    denotes.  Python's true division of two ints is the correctly rounded
    quotient (53 bits, ties to even); its fixed-point formatting is the
    correctly rounded decimal of the float's exact value (ties to even). *)
Record float : Type := mkFloat { mantissa : Z; exponent : Z }.

(** The rational a float denotes. *)
Definition float_value (x : float) : Q :=
  if 0 <=? exponent x
  then inject_Z (mantissa x * 2 ^ exponent x)
  else Qmake (mantissa x) (Z.to_pos (2 ^ (- exponent x))).

(** Nearest integer to [num / den] for [0 < den], ties to even. *)
Definition round_half_even (num den : Z) : Z :=
  let q := num / den in
  let r := num mod den in
  if 2 * r <? den then q
  else if den <? 2 * r then q + 1
  else if Z.even q then q else q + 1.

(** [num / (den * 2 ^ e)] as a fraction of integers. *)
Definition scale2 (num den e : Z) : Z * Z :=
  if 0 <=? e then (num, den * 2 ^ e) else (num * 2 ^ (- e), den).

(** [n / d] for ints [0 <= n], [0 < d], within the normal range of a double. *)
Definition int_true_div (n d : Z) : float :=
  if n =? 0 then mkFloat 0 0
  else
    let s := Z.log2 n - Z.log2 d in
    let '(a, b) := scale2 n d s in
    let binade := if b <=? a then s else s - 1 in
    let e := binade - 52 in
    let '(num, den) := scale2 n d e in
    mkFloat (round_half_even num den) e.

(** The float times one hundred, rounded to an integer. *)
Definition hundredths (x : float) : Z :=
  let '(num, den) := scale2 (100 * mantissa x) 1 (- exponent x) in
  round_half_even num den.

Definition two_digits (k : Z) : string :=
  str_int (k / 10) ++ str_int (k mod 10).

(** The value of a decimal digit, read off its character code. *)
Definition digit_value (c : ascii) : option Z :=
  let n := nat_of_ascii c in
  if ((48 <=? n) && (n <=? 57))%nat then Some (Z.of_nat n - 48) else None.

(** The number a string of decimal digits writes. *)
Fixpoint decimal_acc (acc : Z) (s : string) : option Z :=
  match s with
  | EmptyString => Some acc
  | String c t =>
      match digit_value c with
      | Some d => decimal_acc (10 * acc + d) t
      | None => None
      end
  end.

Definition decimal_value (s : string) : option Z :=
  match s with
  | EmptyString => None
  | _ => decimal_acc 0 s
  end.

(** [f"{x:.2f}"] for [0 <= x]. *)
Definition format_2f (x : float) : string :=
  let h := hundredths x in
  str_int (h / 100) ++ "." ++ two_digits (h mod 100).


(** ** The platform: the library calls of the script

    [World] is what these calls read and write: the file system apart from
    the log file, the installed tools, the clock.  The log (the file
    [validation/onnx_validation.log] and the console) is no part of it: the
    script only writes to it, through [logging.info], and none of the calls
    below is made on it; what it holds is the [Log] events of the trace, in
    order.  A call that fails returns the [Exception] instance it raises; a
    call that writes returns the world it leaves, also when it fails (a
    partial extraction stays on disk). *)
Class Platform : Type := {
  World : Type;
  TarFile : Type;
  TypeProto : Type;
  (** [Path(__file__).resolve().parent] *)
  script_dir : Path;
  (** [str(datetime.datetime.now())] *)
  datetime_now : World -> string;
  (** [p.exists()], or the [OSError] it lets through *)
  pathlib_exists : World -> Path -> PyException + bool;
  (** [os.stat(p).st_size] (an [off_t]), or the [OSError] raised *)
  os_stat : World -> Path -> PyException + Z;
  (** [tarfile.open(p)] *)
  tarfile_open : World -> Path -> PyException + TarFile;
  (** [tar.extractall(path=dest)] *)
  tarfile_extractall : TarFile -> Path -> World -> option PyException * World;
  (** [subprocess.run(cmd, capture_output=True, text=True)] *)
  subprocess_run : list string -> World -> (PyException + CompletedProcess) * World;
  (** [onnx.load(file)] *)
  onnx_load : World -> string -> PyException + ModelProto TypeProto;
  (** [onnx.checker.check_model(model)] *)
  check_model : ModelProto TypeProto -> option PyException;
  (** [str(t)] of a type descriptor inside an f-string *)
  format_type : TypeProto -> string
}.

(** What a run does to the outside, in order. *)
Inductive Event : Type :=
| Log (msg : string)                 (* logging.info(msg) *)
| TarOpen (tar_path : Path)          (* tarfile.open *)
| TarExtractAll (dest : Path)        (* tar.extractall *)
| SubprocessRun (cmd : list string)  (* subprocess.run *)
| OnnxLoad (file : string)           (* onnx.load *)
| CheckModel.                        (* onnx.checker.check_model *)

(** How a Python call ends: it returns, it raises an [Exception], or
    [SystemExit] unwinds the interpreter ([SystemExit] is no [Exception], so
    [except Exception] lets it through). *)
Inductive Result (A : Type) : Type :=
| Ok (a : A)
| Raise (e : PyException)
| Exit (code : Z).
Arguments Ok {A} _.
Arguments Raise {A} _.
Arguments Exit {A} _.

Section Script.

Context {P : Platform}.

(** A computation: from a world to its result, the world it leaves and the
    events it performed (the records it logged among them). *)
Definition M (A : Type) : Type := World -> Result A * World * list Event.

Definition ret {A} (a : A) : M A := fun w => (Ok a, w, []).

Definition bind {A B} (m : M A) (k : A -> M B) : M B :=
  fun w =>
    match m w with
    | (Ok a, w1, t1) => let '(r, w2, t2) := k a w1 in (r, w2, (t1 ++ t2)%list)
    | (Raise e, w1, t1) => (Raise e, w1, t1)
    | (Exit c, w1, t1) => (Exit c, w1, t1)
    end.

Definition raise {A} (e : PyException) : M A := fun w => (Raise e, w, []).

(** [sys.exit(code)] *)
Definition sys_exit {A} (code : Z) : M A := fun w => (Exit code, w, []).

(** [try: body  except Exception as e: handler(e)] *)
Definition try_except {A} (body : M A) (handler : PyException -> M A) : M A :=
  fun w =>
    match body w with
    | (Raise e, w1, t1) => let '(r, w2, t2) := handler e w1 in (r, w2, (t1 ++ t2)%list)
    | other => other
    end.

Declare Scope py_scope.
Delimit Scope py_scope with py.
Notation "x <- m ;; k" := (bind m (fun x => k))
  (at level 100, m at next level, right associativity) : py_scope.
Notation "m ;; k" := (bind m (fun _ => k))
  (at level 100, right associativity) : py_scope.
Local Open Scope py_scope.

(** [for x in xs: body(x)] *)
Fixpoint for_each {A} (xs : list A) (body : A -> M unit) : M unit :=
  match xs with
  | [] => ret tt
  | x :: rest => body x ;; for_each rest body
  end.

Definition emit (ev : Event) : M unit := fun w => (Ok tt, w, [ev]).

(** [log = logging.info]: the record is appended to the log, which the trace
    stands for; the world, which leaves the log out, stays as it is. *)
Definition log (msg : string) : M unit := emit (Log msg).

Definition lift_read {A} (f : World -> PyException + A) : M A :=
  fun w => match f w with
           | inl e => (Raise e, w, [])
           | inr a => (Ok a, w, [])
           end.

(** [p.exists()] *)
Definition path_exists (p : Path) : M bool := lift_read (fun w => pathlib_exists w p).

(** [p.stat().st_size] *)
Definition stat_size (p : Path) : M Z := lift_read (fun w => os_stat w p).

Definition now : M string := fun w => (Ok (datetime_now w), w, []).

Definition tar_open (tar_path : Path) : M TarFile :=
  emit (TarOpen tar_path) ;; lift_read (fun w => tarfile_open w tar_path).

Definition tar_extractall (tar : TarFile) (dest : Path) : M unit :=
  emit (TarExtractAll dest) ;;
  fun w => match tarfile_extractall tar dest w with
           | (Some e, w') => (Raise e, w', [])
           | (None, w') => (Ok tt, w', [])
           end.

Definition subprocess (cmd : list string) : M CompletedProcess :=
  emit (SubprocessRun cmd) ;;
  fun w => match subprocess_run cmd w with
           | (inl e, w') => (Raise e, w', [])
           | (inr result, w') => (Ok result, w', [])
           end.

Definition load (file : string) : M (ModelProto TypeProto) :=
  emit (OnnxLoad file) ;; lift_read (fun w => onnx_load w file).

Definition checker_check_model (model : ModelProto TypeProto) : M unit :=
  emit CheckModel ;;
  match check_model model with
  | Some e => raise e
  | None => ret tt
  end.

(** *** Paths (lines 10-26) *)
Definition BASE_DIR : Path := script_dir.
Definition MODEL_DIR : Path := BASE_DIR // "PP_OCR_models".
Definition OUTPUT_DIR : Path := BASE_DIR // "output".
Definition OUTPUT_VALIDATE_DIR : Path := BASE_DIR // "validation".
Definition LOG_FILE : Path := OUTPUT_VALIDATE_DIR // "onnx_validation.log".
Definition DET_TAR : Path := MODEL_DIR // "ch_PP-OCRv4_det_infer.tar".
Definition REC_TAR : Path := MODEL_DIR // "ch_PP-OCRv4_rec_infer.tar".
Definition DET_ONNX : Path := OUTPUT_DIR // "det.onnx".
Definition REC_ONNX : Path := OUTPUT_DIR // "rec.onnx".
Definition OPSET : Z := 11.

(** *** [run_cmd] (lines 43-47) *)
Definition run_cmd (cmd : list string) (error_msg : string) : M string :=
  result <- subprocess cmd ;;
  if negb (returncode result =? 0)
  then raise (RuntimeError (error_msg ++ nl ++ stderr result))
  else ret (strip (stdout result)).

(** *** [extract_tar] (lines 51-64) *)
Definition extract_tar (tar_path dest : Path) : M Path :=
  let model_name := stem tar_path in
  let extract_path := dest // model_name in
  found <- path_exists extract_path ;;
  if found then
    log ("Already extracted: " ++ model_name) ;;
    ret extract_path
  else
    log ("Extracting " ++ name tar_path ++ "...") ;;
    tar <- tar_open tar_path ;;
    tar_extractall tar dest ;;
    log ("Extracted to " ++ path_str extract_path) ;;
    ret extract_path.

(** The argument vector of lines 69-77. *)
Definition paddle2onnx_cmd (paddle_dir onnx_out : Path) : list string :=
  [ "paddle2onnx";
    "--model_dir"; path_str paddle_dir;
    "--model_filename"; "inference.pdmodel";
    "--params_filename"; "inference.pdiparams";
    "--save_file"; path_str onnx_out;
    "--opset_version"; str_int OPSET;
    "--enable_onnx_checker"; "True" ].

(** *** [paddle_to_onnx] (lines 67-81) *)
Definition paddle_to_onnx (paddle_dir onnx_out : Path) : M unit :=
  log ("Converting " ++ name onnx_out ++ " to ONNX...") ;;
  let cmd := paddle2onnx_cmd paddle_dir onnx_out in
  run_cmd cmd "Paddle to ONNX conversion failed" ;;
  st_size <- stat_size onnx_out ;;
  let size := int_true_div st_size (1024 ^ 2) in
  log ("ONNX model saved: " ++ path_str onnx_out ++ " (" ++ format_2f size ++ " MB)").

Definition log_value_info (v : ValueInfoProto TypeProto) : M unit :=
  log ("  " ++ vi_name v ++ ": " ++ format_type (vi_type v)).

(** *** [validate_onnx] (lines 85-103) *)
Definition validate_onnx (onnx_file : Path) : M unit :=
  log ("Validating " ++ name onnx_file ++ "...") ;;
  try_except
    (model <- load (path_str onnx_file) ;;
     checker_check_model model ;;
     log ("[OK] " ++ name onnx_file ++ " is valid") ;;
     log "Inputs:" ;;
     for_each (input (graph model)) log_value_info ;;
     log "Outputs:" ;;
     for_each (output (graph model)) log_value_info)
    (fun e =>
       log ("[ERROR] " ++ name onnx_file ++ " failed validation: " ++ exc_str e)).

Definition banner (kind : string) : string :=
  nl ++ str_mul "=" 60 ++ nl ++ "Converting " ++ kind ++ " Model" ++ nl ++ str_mul "=" 60.

(** *** [convert_models] (lines 107-111) *)
Definition convert_models (tar_path output_onnx : Path) (kind : string) : M unit :=
  log (banner kind) ;;
  paddle_dir <- extract_tar tar_path MODEL_DIR ;;
  paddle_to_onnx paddle_dir output_onnx ;;
  validate_onnx output_onnx.

(** *** [main] (lines 117-128) *)
Definition main : M unit :=
  stamp <- now ;;
  log ("PaddleOCR Model Converter (ONNX only) - " ++ stamp ++ nl) ;;
  try_except
    (convert_models DET_TAR DET_ONNX "Detection" ;;
     convert_models REC_TAR REC_ONNX "Recognition")
    (fun e =>
       log ("[ERROR] Conversion failed: " ++ exc_str e) ;;
       sys_exit 1) ;;
  log (nl ++ "Conversion complete!") ;;
  log ("Output directory: " ++ path_str OUTPUT_DIR) ;;
  log ("Validation log saved to: " ++ path_str LOG_FILE).

(** The exit status of the interpreter running [main()] as the script does:
    0 when [main] returns, the code of [SystemExit], 1 for an exception that
    nothing caught. *)
Definition exit_status {A} (r : Result A) : Z :=
  match r with
  | Ok _ => 0
  | Raise _ => 1
  | Exit c => c
  end.

Definition result_of {A} (o : Result A * World * list Event) : Result A := fst (fst o).
Definition world_of {A} (o : Result A * World * list Event) : World := snd (fst o).
Definition trace_of {A} (o : Result A * World * list Event) : list Event := snd o.

(** The messages logged, in order. *)
Fixpoint logged (t : list Event) : list string :=
  match t with
  | [] => []
  | Log msg :: rest => msg :: logged rest
  | _ :: rest => logged rest
  end.

(** *** The events of a run, named *)

(** The size line of [paddle_to_onnx]. *)
Definition saved_message (onnx_out : Path) (st_size : Z) : string :=
  "ONNX model saved: " ++ path_str onnx_out ++ " (" ++
  format_2f (int_true_div st_size (1024 ^ 2)) ++ " MB)".

(** One line per declared tensor: name and type. *)
Definition value_info_entries (vs : list (ValueInfoProto TypeProto)) : list Event :=
  map (fun v => Log ("  " ++ vi_name v ++ ": " ++ format_type (vi_type v))) vs.

(** The first line of [main]. *)
Definition header (w : World) : Event :=
  Log ("PaddleOCR Model Converter (ONNX only) - " ++ datetime_now w ++ nl).

(** The three last lines of a run that succeeded. *)
Definition closing : list Event :=
  [Log (nl ++ "Conversion complete!");
   Log ("Output directory: " ++ path_str OUTPUT_DIR);
   Log ("Validation log saved to: " ++ path_str LOG_FILE)].

(** The line of [main]'s handler. *)
Definition conversion_failed (e : PyException) : Event :=
  Log ("[ERROR] Conversion failed: " ++ exc_str e).

End Script.

(** The number of [tar.extractall] calls in a trace. *)
Fixpoint extractions (t : list Event) : nat :=
  match t with
  | [] => O
  | TarExtractAll _ :: rest => S (extractions rest)
  | _ :: rest => extractions rest
  end.

(** The argument vectors handed to [subprocess.run] in a trace. *)
Fixpoint commands (t : list Event) : list (list string) :=
  match t with
  | [] => []
  | SubprocessRun cmd :: rest => cmd :: commands rest
  | _ :: rest => commands rest
  end.

(** ** A small concrete platform

    The world is the table of the entries on disk, keyed by [str(path)], with
    their sizes.  An archive is the list of its top-level member names
    ([members] gives it from the archive's path); extraction creates each
    under the destination.  The converter ends as
    [proc] says and, when [produced] gives a size, leaves the file named by
    its [--save_file] argument.  Loading an existing file gives [loaded]. *)
Module Toy.

Definition Disk : Type := list (string * Z).

Fixpoint lookup (k : string) (d : Disk) : option Z :=
  match d with
  | [] => None
  | (k', v) :: rest => if String.eqb k k' then Some v else lookup k rest
  end.

Definition no_such_file (file : string) : PyException :=
  mkExc "FileNotFoundError" ("[Errno 2] No such file or directory: '" ++ file ++ "'").

Definition stat (d : Disk) (p : Path) : PyException + Z :=
  match lookup (path_str p) d with
  | Some n => inr n
  | None => inl (no_such_file (path_str p))
  end.

Definition extractall (members : list string) (dest : Path) (d : Disk)
  : option PyException * Disk :=
  (None, (map (fun m => (path_str (dest // m), 4096)) members ++ d)%list).

Definition run (proc : CompletedProcess) (produced : option Z)
  (cmd : list string) (d : Disk) : (PyException + CompletedProcess) * Disk :=
  match produced with
  | Some n => (inr proc, (nth 8 cmd "", n) :: d)
  | None => (inr proc, d)
  end.

Definition platform (members : string -> list string) (proc : CompletedProcess)
  (produced : option Z) (loaded : PyException + ModelProto string)
  (verdict : option PyException) : Platform := {|
  World := Disk;
  TarFile := list string;
  TypeProto := string;
  script_dir := mkPath "/" ["app"];
  datetime_now := fun _ => "2024-05-01 10:00:00.000000";
  pathlib_exists := fun d p =>
    match lookup (path_str p) d with
    | Some _ => inr true
    | None => inr false
    end;
  os_stat := stat;
  tarfile_open := fun d p =>
    match lookup (path_str p) d with
    | Some _ => inr (members (path_str p))
    | None => inl (no_such_file (path_str p))
    end;
  tarfile_extractall := extractall;
  subprocess_run := run proc produced;
  onnx_load := fun d file =>
    match lookup file d with
    | Some _ => loaded
    | None => inl (no_such_file file)
    end;
  check_model := fun _ => verdict;
  format_type := fun t => t
|}.

Definition det_tar : string := "/app/PP_OCR_models/ch_PP-OCRv4_det_infer.tar".
Definition rec_tar : string := "/app/PP_OCR_models/ch_PP-OCRv4_rec_infer.tar".

(** Both archives on disk, nothing extracted yet. *)
Definition fresh_disk : Disk := [(det_tar, 4915200); (rec_tar, 10854400)].

(** A model with one input [x] and one output [y]. *)
Definition xy_model : ModelProto string :=
  mkModel (mkGraph [mkValueInfo "x" "tensor(float)"] [mkValueInfo "y" "tensor(float)"]).

Definition succeeded : CompletedProcess := mkCompleted 0 "ok" "".
Definition missing_op : CompletedProcess := mkCompleted 1 "" "missing op".

(** Archives laid out as the script expects: one directory named after the
    archive's stem. *)
Definition well_laid (archive : string) : list string :=
  if String.eqb archive det_tar then ["ch_PP-OCRv4_det_infer"]
  else ["ch_PP-OCRv4_rec_infer"].

(** Well-laid archives, a converter that writes 2.50 MB, a valid model. *)
Definition good : Platform :=
  platform well_laid succeeded (Some 2621440)
           (inr xy_model) None.

(** The converter fails with [missing op] on stderr. *)
Definition failing : Platform :=
  platform well_laid missing_op None
           (inr xy_model) None.

(** The converter reports success and writes nothing. *)
Definition silent : Platform :=
  platform well_laid succeeded None
           (inr xy_model) None.

(** The produced file fails the schema check. *)
Definition rejected : Platform :=
  platform well_laid succeeded (Some 2621440)
           (inr xy_model) (Some (mkExc "ValidationError" "bad graph")).

(** An archive whose only top-level member is [inference], not a directory
    named after the archive. *)
Definition flat : Platform :=
  platform (fun _ => ["inference"]) succeeded (Some 2621440) (inr xy_model) None.

End Toy.


(** ** Further vocabulary for the properties *)

(** The events one call [convert_models tar_path output_onnx kind] may perform,
    read off lines 51-111. *)
Inductive conversion_event {P : Platform} (tar_path output_onnx : Path) (kind : string)
  : Event -> Prop :=
| ce_banner : conversion_event tar_path output_onnx kind (Log (banner kind))
| ce_already :
    conversion_event tar_path output_onnx kind
      (Log ("Already extracted: " ++ stem tar_path))
| ce_extracting :
    conversion_event tar_path output_onnx kind
      (Log ("Extracting " ++ name tar_path ++ "..."))
| ce_open : conversion_event tar_path output_onnx kind (TarOpen tar_path)
| ce_extractall : conversion_event tar_path output_onnx kind (TarExtractAll MODEL_DIR)
| ce_extracted :
    conversion_event tar_path output_onnx kind
      (Log ("Extracted to " ++ path_str (MODEL_DIR // stem tar_path)))
| ce_converting :
    conversion_event tar_path output_onnx kind
      (Log ("Converting " ++ name output_onnx ++ " to ONNX..."))
| ce_run :
    conversion_event tar_path output_onnx kind
      (SubprocessRun (paddle2onnx_cmd (MODEL_DIR // stem tar_path) output_onnx))
| ce_saved (st_size : Z) :
    conversion_event tar_path output_onnx kind (Log (saved_message output_onnx st_size))
| ce_validating :
    conversion_event tar_path output_onnx kind
      (Log ("Validating " ++ name output_onnx ++ "..."))
| ce_load : conversion_event tar_path output_onnx kind (OnnxLoad (path_str output_onnx))
| ce_check : conversion_event tar_path output_onnx kind CheckModel
| ce_valid :
    conversion_event tar_path output_onnx kind
      (Log ("[OK] " ++ name output_onnx ++ " is valid"))
| ce_inputs : conversion_event tar_path output_onnx kind (Log "Inputs:")
| ce_outputs : conversion_event tar_path output_onnx kind (Log "Outputs:")
| ce_entry (v : ValueInfoProto TypeProto) :
    conversion_event tar_path output_onnx kind
      (Log ("  " ++ vi_name v ++ ": " ++ format_type (vi_type v)))
| ce_invalid (e : PyException) :
    conversion_event tar_path output_onnx kind
      (Log ("[ERROR] " ++ name output_onnx ++ " failed validation: " ++ exc_str e)).


(** U+00A0, the no-break space, in UTF-8. *)
Definition nbsp : string :=
  String (ascii_of_nat 194) (String (ascii_of_nat 160) EmptyString).

(** A converter that prints its answer between blanks, a no-break space and
    a newline. *)
Definition padded_output : CompletedProcess :=
  mkCompleted 0 ("  saved model " ++ nbsp ++ nl) "".

Definition padding : Platform :=
  Toy.platform Toy.well_laid padded_output None (inr Toy.xy_model) None.

(** The platform [P] on which the converter cannot be started:
    [subprocess.run] raises [e] and changes nothing. *)
Definition without_converter (P : Platform) (e : PyException) : Platform := {|
  World := @World P;
  TarFile := @TarFile P;
  TypeProto := @TypeProto P;
  script_dir := @script_dir P;
  datetime_now := @datetime_now P;
  pathlib_exists := @pathlib_exists P;
  os_stat := @os_stat P;
  tarfile_open := @tarfile_open P;
  tarfile_extractall := @tarfile_extractall P;
  subprocess_run := fun _ w => (inl e, w);
  onnx_load := @onnx_load P;
  check_model := @check_model P;
  format_type := @format_type P
|}.

(** What Python raises when the executable is not found. *)
Definition no_paddle2onnx : PyException :=
  mkExc "FileNotFoundError" "[Errno 2] No such file or directory: 'paddle2onnx'".

(** Whether an event opens or unpacks an archive. *)
Definition touches_archive (ev : Event) : bool :=
  match ev with
  | TarOpen _ | TarExtractAll _ => true
  | _ => false
  end.

(** The files handed to [onnx.load] in a trace. *)
Fixpoint loads (t : list Event) : list string :=
  match t with
  | [] => []
  | OnnxLoad file :: rest => file :: loads rest
  | _ :: rest => loads rest
  end.

(** * Properties *)

(** A first run on well-laid archives: the Detection conversion extracts,
    converts, reports 2.50 MB and validates a model with input [x] and
    output [y]. *)
Example detection_on_fresh_disk :
  logged (trace_of (@convert_models Toy.good (@DET_TAR Toy.good) (@DET_ONNX Toy.good)
                      "Detection" Toy.fresh_disk)) =
  [ banner "Detection";
    "Extracting ch_PP-OCRv4_det_infer.tar...";
    "Extracted to /app/PP_OCR_models/ch_PP-OCRv4_det_infer";
    "Converting det.onnx to ONNX...";
    "ONNX model saved: /app/output/det.onnx (2.50 MB)";
    "Validating det.onnx...";
    "[OK] det.onnx is valid";
    "Inputs:";
    "  x: tensor(float)";
    "Outputs:";
    "  y: tensor(float)" ].
Proof. reflexivity. Qed.

(** Rounding to hundredths goes to the even neighbour on a tie: 0.125 MB and
    0.375 MB print as 0.12 and 0.38. *)
Example format_2f_ties :
  format_2f (int_true_div 131072 (1024 ^ 2)) = "0.12" /\
  format_2f (int_true_div 393216 (1024 ^ 2)) = "0.38".
Proof. split; reflexivity. Qed.

(** ** Strings and paths *)

Lemma contains_intro (pre sub post : string) : contains (pre ++ sub ++ post) sub.
Proof. exists pre, post. reflexivity. Qed.

Lemma append_empty_r (s : string) : s ++ "" = s.
Proof. induction s as [|a s IH]; simpl; [reflexivity | now rewrite IH]. Qed.

Lemma contains_suffix (pre sub : string) : contains (pre ++ sub) sub.
Proof. exists pre, "". now rewrite append_empty_r. Qed.

Lemma contains_prefix (sub post : string) : contains (sub ++ post) sub.
Proof. exists "", post. reflexivity. Qed.

Lemma append_assoc (a b c : string) : (a ++ b) ++ c = a ++ (b ++ c).
Proof. induction a as [|x a IH]; simpl; [reflexivity | now rewrite IH]. Qed.

Lemma contains_append_l (pre s sub : string) :
  contains s sub -> contains (pre ++ s) sub.
Proof.
  intros (a & b & ->). exists (pre ++ a), b. now rewrite append_assoc.
Qed.

Lemma last_snoc {A} (l : list A) (x d : A) : last (l ++ [x]) d = x.
Proof.
  induction l as [|a l IH]; simpl; [reflexivity|].
  destruct (l ++ [x])%list eqn:E; [now destruct l | exact IH].
Qed.

Lemma last_two_more {A} (x y a b d : A) (l : list A) :
  last (x :: y :: l ++ [a; b]) d = b.
Proof.
  replace (x :: y :: l ++ [a; b])%list with ((x :: y :: l ++ [a]) ++ [b])%list.
  - apply last_snoc.
  - cbn [app]. rewrite <- app_assoc. reflexivity.
Qed.

Lemma name_joinpath (p : Path) (c : string) :
  (String.eqb c "" || String.eqb c ".") = false -> name (p // c) = c.
Proof.
  intros H. unfold joinpath, name. rewrite H. simpl. apply last_snoc.
Qed.

(** ** Traces *)

Lemma extractions_app (t u : list Event) :
  extractions (t ++ u) = (extractions t + extractions u)%nat.
Proof.
  induction t as [|ev t IH]; simpl; [reflexivity|].
  destruct ev; simpl; rewrite IH; reflexivity.
Qed.

Lemma commands_app (t u : list Event) :
  commands (t ++ u) = (commands t ++ commands u)%list.
Proof.
  induction t as [|ev t IH]; simpl; [reflexivity|].
  destruct ev; simpl; rewrite IH; reflexivity.
Qed.

Lemma logged_app (t u : list Event) :
  logged (t ++ u) = (logged t ++ logged u)%list.
Proof.
  induction t as [|ev t IH]; simpl; [reflexivity|].
  destruct ev; simpl; rewrite IH; reflexivity.
Qed.

Section Equations.

Context {P : Platform}.

(** ** One equation per function: its outcome by cases on the library calls *)

Lemma for_each_log_value_info (vs : list (ValueInfoProto TypeProto)) (w : World) :
  for_each vs log_value_info w =
  (Ok tt, w, map (fun v => Log ("  " ++ vi_name v ++ ": " ++ format_type (vi_type v))) vs).
Proof.
  induction vs as [|v vs IH]; [reflexivity|].
  cbn [for_each]. unfold bind at 1. unfold log_value_info at 1, log, emit.
  rewrite IH. reflexivity.
Qed.

Lemma run_cmd_eq (cmd : list string) (error_msg : string) (w : World) :
  run_cmd cmd error_msg w =
  match subprocess_run cmd w with
  | (inl e, w') => (Raise e, w', [SubprocessRun cmd])
  | (inr result, w') =>
      if returncode result =? 0
      then (Ok (strip (stdout result)), w', [SubprocessRun cmd])
      else (Raise (RuntimeError (error_msg ++ nl ++ stderr result)), w', [SubprocessRun cmd])
  end.
Proof.
  unfold run_cmd, subprocess, bind, emit, raise, ret.
  destruct (subprocess_run cmd w) as [[e|result] w']; [reflexivity|].
  destruct (returncode result =? 0); reflexivity.
Qed.

Lemma extract_tar_eq (tar_path dest : Path) (w : World) :
  extract_tar tar_path dest w =
  let extract_path := dest // stem tar_path in
  match pathlib_exists w extract_path with
  | inl e => (Raise e, w, [])
  | inr true => (Ok extract_path, w, [Log ("Already extracted: " ++ stem tar_path)])
  | inr false =>
      let started := [Log ("Extracting " ++ name tar_path ++ "..."); TarOpen tar_path] in
      match tarfile_open w tar_path with
      | inl e => (Raise e, w, started)
      | inr tar =>
          match tarfile_extractall tar dest w with
          | (Some e, w') => (Raise e, w', (started ++ [TarExtractAll dest])%list)
          | (None, w') =>
              (Ok extract_path, w',
               (started ++ [TarExtractAll dest;
                            Log ("Extracted to " ++ path_str extract_path)])%list)
          end
      end
  end.
Proof.
  unfold extract_tar, path_exists, tar_open, tar_extractall, lift_read,
    bind, log, emit, ret.
  cbv zeta.
  destruct (pathlib_exists w (dest // stem tar_path)) as [e|[|]]; try reflexivity.
  destruct (tarfile_open w tar_path) as [e|tar]; [reflexivity|].
  destruct (tarfile_extractall tar dest w) as [[e|] w']; reflexivity.
Qed.

Lemma paddle_to_onnx_eq (paddle_dir onnx_out : Path) (w : World) :
  paddle_to_onnx paddle_dir onnx_out w =
  let cmd := paddle2onnx_cmd paddle_dir onnx_out in
  let started := [Log ("Converting " ++ name onnx_out ++ " to ONNX..."); SubprocessRun cmd] in
  match subprocess_run cmd w with
  | (inl e, w') => (Raise e, w', started)
  | (inr result, w') =>
      if returncode result =? 0 then
        match os_stat w' onnx_out with
        | inl e => (Raise e, w', started)
        | inr st_size =>
            (Ok tt, w', (started ++ [Log (saved_message onnx_out st_size)])%list)
        end
      else
        (Raise (RuntimeError ("Paddle to ONNX conversion failed" ++ nl ++ stderr result)),
         w', started)
  end.
Proof.
  unfold paddle_to_onnx. cbv zeta. unfold bind at 1. unfold log at 1, emit.
  unfold bind at 1. rewrite run_cmd_eq.
  destruct (subprocess_run _ w) as [[e|result] w']; [reflexivity|].
  destruct (returncode result =? 0); [|reflexivity].
  unfold bind, stat_size, lift_read, log, emit.
  destruct (os_stat w' onnx_out); reflexivity.
Qed.

Lemma validate_onnx_eq (onnx_file : Path) (w : World) :
  validate_onnx onnx_file w =
  let file := path_str onnx_file in
  let started := [Log ("Validating " ++ name onnx_file ++ "..."); OnnxLoad file] in
  let failed e :=
    Log ("[ERROR] " ++ name onnx_file ++ " failed validation: " ++ exc_str e) in
  match onnx_load w file with
  | inl e => (Ok tt, w, (started ++ [failed e])%list)
  | inr model =>
      match check_model model with
      | Some e => (Ok tt, w, (started ++ [CheckModel; failed e])%list)
      | None =>
          (Ok tt, w,
           (started ++ [CheckModel; Log ("[OK] " ++ name onnx_file ++ " is valid")]
            ++ [Log "Inputs:"] ++ value_info_entries (input (graph model))
            ++ [Log "Outputs:"] ++ value_info_entries (output (graph model)))%list)
      end
  end.
Proof.
  unfold validate_onnx. cbv zeta. unfold bind at 1. unfold log at 1, emit.
  unfold try_except. unfold bind at 1. unfold load, bind at 1, emit, lift_read.
  destruct (onnx_load w (path_str onnx_file)) as [e|model]; [reflexivity|].
  unfold bind at 1. unfold checker_check_model, bind at 1, emit.
  destruct (check_model model) as [e|]; [reflexivity|].
  unfold ret. unfold bind at 1. unfold log at 1, emit.
  unfold bind at 1. unfold log at 1, emit.
  unfold bind at 1. rewrite for_each_log_value_info.
  unfold bind at 1. unfold log at 1, emit.
  rewrite for_each_log_value_info. reflexivity.
Qed.

Lemma convert_models_eq (tar_path output_onnx : Path) (kind : string) (w : World) :
  convert_models tar_path output_onnx kind w =
  match extract_tar tar_path MODEL_DIR w with
  | (Ok paddle_dir, w1, t1) =>
      match paddle_to_onnx paddle_dir output_onnx w1 with
      | (Ok _, w2, t2) =>
          let '(r, w3, t3) := validate_onnx output_onnx w2 in
          (r, w3, (Log (banner kind) :: t1 ++ t2 ++ t3)%list)
      | (Raise e, w2, t2) => (Raise e, w2, (Log (banner kind) :: t1 ++ t2)%list)
      | (Exit c, w2, t2) => (Exit c, w2, (Log (banner kind) :: t1 ++ t2)%list)
      end
  | (Raise e, w1, t1) => (Raise e, w1, Log (banner kind) :: t1)
  | (Exit c, w1, t1) => (Exit c, w1, Log (banner kind) :: t1)
  end.
Proof.
  unfold convert_models. unfold bind at 1. unfold log at 1, emit.
  unfold bind at 1.
  destruct (extract_tar tar_path MODEL_DIR w) as [[[d|e|c] w1] t1]; try reflexivity.
  unfold bind at 1.
  destruct (paddle_to_onnx d output_onnx w1) as [[[u|e|c] w2] t2]; try reflexivity.
  destruct (validate_onnx output_onnx w2) as [[r w3] t3]. reflexivity.
Qed.

Lemma main_eq (w : World) :
  main w =
  match convert_models DET_TAR DET_ONNX "Detection" w with
  | (Ok _, w1, t1) =>
      match convert_models REC_TAR REC_ONNX "Recognition" w1 with
      | (Ok _, w2, t2) => (Ok tt, w2, (header w :: t1 ++ t2 ++ closing)%list)
      | (Raise e, w2, t2) =>
          (Exit 1, w2, (header w :: t1 ++ t2 ++ [conversion_failed e])%list)
      | (Exit c, w2, t2) => (Exit c, w2, (header w :: t1 ++ t2)%list)
      end
  | (Raise e, w1, t1) => (Exit 1, w1, (header w :: t1 ++ [conversion_failed e])%list)
  | (Exit c, w1, t1) => (Exit c, w1, header w :: t1)
  end.
Proof.
  unfold main. unfold bind at 1. unfold now at 1.
  unfold bind at 1. unfold log at 1, emit.
  unfold bind at 1. unfold try_except. unfold bind at 1.
  destruct (convert_models DET_TAR DET_ONNX "Detection" w) as [[[u|e|c] w1] t1].
  - destruct (convert_models REC_TAR REC_ONNX "Recognition" w1) as [[[u'|e|c] w2] t2].
    + unfold bind, log, emit, header, closing. cbn [app].
      rewrite <- ?app_assoc. destruct u'. reflexivity.
    + unfold bind, log, emit, sys_exit, header, conversion_failed. cbn [app].
      rewrite ?app_nil_r, <- ?app_assoc. reflexivity.
    + reflexivity.
  - unfold bind, log, emit, sys_exit, header, conversion_failed. cbn [app].
    rewrite ?app_nil_r. reflexivity.
  - reflexivity.
Qed.

End Equations.

(** ** Shapes of outcomes *)

Section Shapes.

Context {P : Platform}.

Lemma name_DET_ONNX : name DET_ONNX = "det.onnx".
Proof. apply name_joinpath. reflexivity. Qed.

Lemma name_REC_ONNX : name REC_ONNX = "rec.onnx".
Proof. apply name_joinpath. reflexivity. Qed.

(** [extract_tar] returns the joined path or raises. *)
Lemma extract_tar_result (tar_path dest : Path) (w : World) :
  result_of (extract_tar tar_path dest w) = Ok (dest // stem tar_path) \/
  exists e, result_of (extract_tar tar_path dest w) = Raise e.
Proof.
  rewrite extract_tar_eq. cbv zeta.
  destruct (pathlib_exists w _) as [e|[|]];
    [right; now exists e | left; reflexivity |].
  destruct (tarfile_open w tar_path) as [e|tar]; [right; now exists e|].
  destruct (tarfile_extractall tar dest w) as [[e|] w'];
    [right; now exists e | left; reflexivity].
Qed.

Lemma paddle_to_onnx_result (paddle_dir onnx_out : Path) (w : World) :
  result_of (paddle_to_onnx paddle_dir onnx_out w) = Ok tt \/
  exists e, result_of (paddle_to_onnx paddle_dir onnx_out w) = Raise e.
Proof.
  rewrite paddle_to_onnx_eq. cbv zeta.
  destruct (subprocess_run _ w) as [[e|result] w']; [right; now exists e|].
  destruct (returncode result =? 0); [|right; eexists; reflexivity].
  destruct (os_stat w' onnx_out) as [e|n]; [right; now exists e | left; reflexivity].
Qed.

Lemma validate_onnx_returns (onnx_file : Path) (w : World) :
  exists t, validate_onnx onnx_file w = (Ok tt, w, t).
Proof.
  rewrite validate_onnx_eq. cbv zeta.
  destruct (onnx_load w _) as [e|model]; [eexists; reflexivity|].
  destruct (check_model model); eexists; reflexivity.
Qed.

(** [convert_models] ends as its extraction and conversion steps do. *)
Lemma convert_models_result (tar_path output_onnx : Path) (kind : string) (w : World) :
  result_of (convert_models tar_path output_onnx kind w) =
  match extract_tar tar_path MODEL_DIR w with
  | (Ok paddle_dir, w1, _) =>
      match result_of (paddle_to_onnx paddle_dir output_onnx w1) with
      | Ok _ => Ok tt
      | Raise e => Raise e
      | Exit c => Exit c
      end
  | (Raise e, _, _) => Raise e
  | (Exit c, _, _) => Exit c
  end.
Proof.
  rewrite convert_models_eq.
  destruct (extract_tar tar_path MODEL_DIR w) as [[[d|e|c] w1] t1]; try reflexivity.
  destruct (paddle_to_onnx d output_onnx w1) as [[[u|e|c] w2] t2]; try reflexivity.
  destruct (validate_onnx_returns output_onnx w2) as [t3 ->]. reflexivity.
Qed.

Lemma convert_models_no_exit (tar_path output_onnx : Path) (kind : string)
  (w : World) (c : Z) :
  result_of (convert_models tar_path output_onnx kind w) <> Exit c.
Proof.
  rewrite convert_models_result.
  pose proof (extract_tar_result tar_path MODEL_DIR w) as Hx.
  destruct (extract_tar tar_path MODEL_DIR w) as [[[d|e|c'] w1] t1]; try discriminate.
  - pose proof (paddle_to_onnx_result d output_onnx w1) as Hp.
    destruct (result_of (paddle_to_onnx d output_onnx w1)); try discriminate.
    destruct Hp as [Hp|[e Hp]]; discriminate.
  - destruct Hx as [Hx|[e Hx]]; discriminate.
Qed.

(** The status of the process, from the outcomes of the two conversions. *)
Lemma main_status (w : World) :
  exit_status (result_of (main w)) =
  match convert_models DET_TAR DET_ONNX "Detection" w with
  | (Ok _, w1, _) =>
      match result_of (convert_models REC_TAR REC_ONNX "Recognition" w1) with
      | Ok _ => 0
      | _ => 1
      end
  | _ => 1
  end.
Proof.
  rewrite main_eq.
  pose proof (convert_models_no_exit DET_TAR DET_ONNX "Detection" w) as H1.
  destruct (convert_models DET_TAR DET_ONNX "Detection" w) as [[[u|e|c] w1] t1];
    [|reflexivity|now elim (H1 c)].
  pose proof (convert_models_no_exit REC_TAR REC_ONNX "Recognition" w1) as H2.
  destruct (convert_models REC_TAR REC_ONNX "Recognition" w1) as [[[u'|e|c] w2] t2];
    [reflexivity|reflexivity|now elim (H2 c)].
Qed.

End Shapes.

(** ** The converter invoker *)

(** C4: when the converter process exits with a non-zero status, [run_cmd]
    raises a [RuntimeError] whose text is the supplied message, a newline and
    the captured standard error, so the text holds both verbatim. *)
Theorem run_cmd_failure_carries_stderr {P : Platform}
  (cmd : list string) (error_msg : string) (w w' : World) (result : CompletedProcess) :
  subprocess_run cmd w = (inr result, w') ->
  returncode result <> 0 ->
  exists e,
    run_cmd cmd error_msg w = (Raise e, w', [SubprocessRun cmd]) /\
    exc_class e = "RuntimeError" /\
    exc_str e = error_msg ++ nl ++ stderr result /\
    contains (exc_str e) (stderr result) /\
    contains (exc_str e) error_msg.
Proof.
  intros Hrun Hcode.
  exists (RuntimeError (error_msg ++ nl ++ stderr result)).
  rewrite run_cmd_eq, Hrun.
  destruct (Z.eqb_spec (returncode result) 0) as [E|_]; [contradiction|].
  repeat split.
  - cbn [exc_str RuntimeError]. apply contains_append_l, contains_suffix.
  - cbn [exc_str RuntimeError]. apply contains_prefix.
Qed.

Lemma run_cmd_failure_carries_stderr_witness :
  @subprocess_run Toy.failing ["paddle2onnx"] Toy.fresh_disk
    = (inr Toy.missing_op, Toy.fresh_disk) /\
  returncode Toy.missing_op <> 0 /\
  exists e,
    @run_cmd Toy.failing ["paddle2onnx"] "Paddle to ONNX conversion failed" Toy.fresh_disk
      = (Raise e, Toy.fresh_disk, [SubprocessRun ["paddle2onnx"]]) /\
    exc_class e = "RuntimeError" /\
    exc_str e = "Paddle to ONNX conversion failed" ++ nl ++ "missing op" /\
    contains (exc_str e) "missing op" /\
    contains (exc_str e) "Paddle to ONNX conversion failed".
Proof.
  split; [reflexivity|]. split; [simpl; lia|].
  apply (@run_cmd_failure_carries_stderr Toy.failing ["paddle2onnx"]
           "Paddle to ONNX conversion failed" Toy.fresh_disk Toy.fresh_disk
           Toy.missing_op); [reflexivity | simpl; lia].
Defined.

(** ** What one extraction may log and do *)

Section ExtractionTrace.

Context {P : Platform}.

Lemma extract_tar_events (tar_path dest : Path) (w : World) (ev : Event) :
  In ev (trace_of (extract_tar tar_path dest w)) ->
  ev = Log ("Already extracted: " ++ stem tar_path) \/
  ev = Log ("Extracting " ++ name tar_path ++ "...") \/
  ev = TarOpen tar_path \/
  ev = TarExtractAll dest \/
  ev = Log ("Extracted to " ++ path_str (dest // stem tar_path)).
Proof.
  rewrite extract_tar_eq. cbv zeta.
  destruct (pathlib_exists w _) as [e|[|]].
  - intros [].
  - cbn. intuition auto.
  - destruct (tarfile_open w tar_path) as [e|tar].
    + cbn. intuition auto.
    + destruct (tarfile_extractall tar dest w) as [[e|] w']; cbn; intuition auto.
Qed.

Lemma extract_tar_commands (tar_path dest : Path) (w : World) :
  commands (trace_of (extract_tar tar_path dest w)) = [].
Proof.
  rewrite extract_tar_eq. cbv zeta.
  destruct (pathlib_exists w _) as [e|[|]]; try reflexivity.
  destruct (tarfile_open w tar_path) as [e|tar]; [reflexivity|].
  destruct (tarfile_extractall tar dest w) as [[e|] w']; reflexivity.
Qed.

Lemma banner_starts_with_newline (kind : string) :
  String.get 0 (banner kind) = Some (ascii_of_nat 10).
Proof. reflexivity. Qed.

Lemma extract_tar_logs_no_banner (tar_path dest : Path) (w : World) (kind : string) :
  ~ In (Log (banner kind)) (trace_of (extract_tar tar_path dest w)).
Proof.
  intros H. apply extract_tar_events in H.
  pose proof (banner_starts_with_newline kind) as B.
  destruct H as [H|[H|[H|[H|H]]]]; try discriminate;
    injection H as H; rewrite H in B; cbn in B; discriminate.
Qed.

Lemma DET_TAR_neq_REC_TAR : DET_TAR <> REC_TAR.
Proof.
  unfold DET_TAR, REC_TAR. generalize MODEL_DIR. intros m H.
  unfold joinpath in H. cbn [String.eqb orb Ascii.eqb] in H. injection H as H. apply app_inj_tail in H. destruct H as [_ H].
  discriminate.
Qed.

Lemma banner_Detection_neq_Recognition : banner "Detection" <> banner "Recognition".
Proof.
  intros H. apply (f_equal (String.get 73)) in H. vm_compute in H. discriminate.
Qed.

End ExtractionTrace.

(** ** The orchestrator: failure of the first conversion *)

(** C1: when the archive of the Detection model is extracted and the converter
    then exits with a non-zero status, [main] ends by [sys.exit(1)]; the last
    line logged is ["[ERROR] Conversion failed: "] followed by the error text,
    which holds the converter's standard error; the banner of the Recognition
    model is never logged, its archive is never opened, and the only process
    run is the Detection conversion. *)
Theorem detection_failure_aborts_run {P : Platform}
  (w w1 w2 : World) (paddle_dir : Path) (t1 : list Event) (result : CompletedProcess) :
  extract_tar DET_TAR MODEL_DIR w = (Ok paddle_dir, w1, t1) ->
  subprocess_run (paddle2onnx_cmd paddle_dir DET_ONNX) w1 = (inr result, w2) ->
  returncode result <> 0 ->
  let cmd := paddle2onnx_cmd paddle_dir DET_ONNX in
  let text := "Paddle to ONNX conversion failed" ++ nl ++ stderr result in
  main w =
    (Exit 1, w2,
     (header w :: Log (banner "Detection") :: t1 ++
      [Log "Converting det.onnx to ONNX..."; SubprocessRun cmd;
       Log ("[ERROR] Conversion failed: " ++ text)])%list) /\
  exit_status (result_of (main w)) = 1 /\
  last (logged (trace_of (main w))) "" = "[ERROR] Conversion failed: " ++ text /\
  contains ("[ERROR] Conversion failed: " ++ text) (stderr result) /\
  ~ In (Log (banner "Recognition")) (trace_of (main w)) /\
  ~ In (TarOpen REC_TAR) (trace_of (main w)) /\
  commands (trace_of (main w)) = [cmd].
Proof.
  intros Hx Hrun Hcode cmd text.
  assert (Hconv : convert_models DET_TAR DET_ONNX "Detection" w =
    (Raise (RuntimeError text), w2,
     (Log (banner "Detection") :: t1 ++
      [Log "Converting det.onnx to ONNX..."; SubprocessRun cmd])%list)).
  { rewrite convert_models_eq, Hx, paddle_to_onnx_eq. cbv zeta.
    rewrite Hrun, name_DET_ONNX.
    destruct (Z.eqb_spec (returncode result) 0) as [E|_]; [contradiction|].
    reflexivity. }
  assert (Hmain : main w =
    (Exit 1, w2,
     (header w :: Log (banner "Detection") :: t1 ++
      [Log "Converting det.onnx to ONNX..."; SubprocessRun cmd;
       Log ("[ERROR] Conversion failed: " ++ text)])%list)).
  { rewrite main_eq, Hconv. unfold conversion_failed. cbn [exc_str RuntimeError].
    cbn [app]. rewrite <- app_assoc. reflexivity. }
  assert (Ht1 : t1 = trace_of (extract_tar DET_TAR MODEL_DIR w)) by now rewrite Hx.
  split; [exact Hmain|]. rewrite Hmain. unfold trace_of, result_of. cbn [fst snd].
  split; [reflexivity|].
  split.
  { unfold header. cbn [logged]. rewrite logged_app. cbn [logged].
    apply last_two_more. }
  split.
  { unfold text. apply contains_append_l, contains_append_l, contains_suffix. }
  split.
  { intros [H|[H|H]].
    - discriminate.
    - injection H as H. now apply banner_Detection_neq_Recognition.
    - apply in_app_or in H. destruct H as [H|H].
      + rewrite Ht1 in H. now apply extract_tar_logs_no_banner in H.
      + pose proof (banner_starts_with_newline "Recognition") as B.
        destruct H as [H|[H|[H|[]]]]; try discriminate;
          injection H as H; rewrite <- H in B; cbn in B; discriminate. }
  split.
  { intros [H|[H|H]]; try discriminate.
    apply in_app_or in H. destruct H as [H|H].
    - rewrite Ht1 in H. apply extract_tar_events in H.
      destruct H as [H|[H|[H|[H|H]]]]; try discriminate.
      apply DET_TAR_neq_REC_TAR. congruence.
    - destruct H as [H|[H|[H|[]]]]; discriminate. }
  unfold header. cbn [commands]. rewrite commands_app, Ht1, extract_tar_commands.
  reflexivity.
Qed.

Lemma detection_failure_aborts_run_witness :
  returncode Toy.missing_op <> 0 /\
  exit_status (result_of (@main Toy.failing Toy.fresh_disk)) = 1 /\
  contains ("[ERROR] Conversion failed: " ++
            ("Paddle to ONNX conversion failed" ++ nl ++ "missing op")) "missing op" /\
  ~ In (Log (banner "Recognition")) (trace_of (@main Toy.failing Toy.fresh_disk)).
Proof.
  split; [simpl; lia|].
  pose (P := Toy.failing).
  pose (o := @extract_tar P (@DET_TAR P) (@MODEL_DIR P) Toy.fresh_disk).
  pose proof (@detection_failure_aborts_run P Toy.fresh_disk
    (world_of o) (world_of o) (@MODEL_DIR P // stem (@DET_TAR P)) (trace_of o)
    Toy.missing_op ltac:(reflexivity) ltac:(reflexivity) ltac:(simpl; lia)) as H.
  cbv zeta in H. destruct H as (_ & H1 & _ & H2 & H3 & _).
  exact (conj H1 (conj H2 H3)).
Defined.

(** ** The orchestrator: exit status *)

Lemma convert_models_raises_iff {P : Platform}
  (tar_path output_onnx : Path) (kind : string) (w0 : World) (e : PyException) :
  result_of (convert_models tar_path output_onnx kind w0) = Raise e <->
  result_of (extract_tar tar_path MODEL_DIR w0) = Raise e \/
  exists paddle_dir w1 t1,
    extract_tar tar_path MODEL_DIR w0 = (Ok paddle_dir, w1, t1) /\
    result_of (paddle_to_onnx paddle_dir output_onnx w1) = Raise e.
Proof.
  rewrite convert_models_result.
  destruct (extract_tar tar_path MODEL_DIR w0) as [[[d|e'|c] w1] t1];
    cbn [result_of fst].
  - split.
    + intros H. right. exists d, w1, t1. split; [reflexivity|].
      destruct (paddle_to_onnx d output_onnx w1) as [[[u|e'|c] w2] t2];
        cbn [result_of fst] in *; congruence.
    + intros [H|(d' & w1' & t1' & H & H')]; [discriminate|].
      injection H as <- <- <-.
      destruct (paddle_to_onnx d output_onnx w1) as [[[u|e'|c] w2] t2];
        cbn [result_of fst] in *; congruence.
  - split; [intros H; left; now injection H as ->|].
    intros [H|(d' & w1' & t1' & H & _)]; [now injection H as -> | discriminate].
  - split; [discriminate|].
    intros [H|(d' & w1' & t1' & H & _)]; discriminate.
Qed.

(** C6: the exit status of a run is 0 exactly when the conversions of both
    model kinds return, and 1 exactly when one of them raises; a conversion
    raises exactly when its extraction step or its converter step raises
    (validation never does). *)
Theorem exit_status_reflects_conversions {P : Platform} (w : World) :
  (exit_status (result_of (main w)) = 0 <->
   exists w1 t1 w2 t2,
     convert_models DET_TAR DET_ONNX "Detection" w = (Ok tt, w1, t1) /\
     convert_models REC_TAR REC_ONNX "Recognition" w1 = (Ok tt, w2, t2)) /\
  (exit_status (result_of (main w)) = 1 <->
   (exists e, result_of (convert_models DET_TAR DET_ONNX "Detection" w) = Raise e) \/
   (exists w1 t1 e,
     convert_models DET_TAR DET_ONNX "Detection" w = (Ok tt, w1, t1) /\
     result_of (convert_models REC_TAR REC_ONNX "Recognition" w1) = Raise e)) /\
  (forall tar_path output_onnx kind w0 e,
     result_of (convert_models tar_path output_onnx kind w0) = Raise e <->
     result_of (extract_tar tar_path MODEL_DIR w0) = Raise e \/
     exists paddle_dir w1 t1,
       extract_tar tar_path MODEL_DIR w0 = (Ok paddle_dir, w1, t1) /\
       result_of (paddle_to_onnx paddle_dir output_onnx w1) = Raise e).
Proof.
  split; [|split; [|intros; apply convert_models_raises_iff]].
  - rewrite main_status.
    pose proof (convert_models_no_exit DET_TAR DET_ONNX "Detection" w) as N1.
    destruct (convert_models DET_TAR DET_ONNX "Detection" w) as [[[[]|e|c] w1] t1];
      [| |now elim (N1 c)].
    + pose proof (convert_models_no_exit REC_TAR REC_ONNX "Recognition" w1) as N2.
      destruct (convert_models REC_TAR REC_ONNX "Recognition" w1)
        as [[[[]|e|c] w2] t2] eqn:E2; [| |now elim (N2 c)]; cbn [result_of fst].
      * split; [intros _; now exists w1, t1, w2, t2 | reflexivity].
      * split; [discriminate|].
        intros (w1' & t1' & w2' & t2' & H & H'). injection H as <- <-.
        rewrite E2 in H'. discriminate.
    + split; [discriminate|]. intros (w1' & t1' & w2' & t2' & H & _). discriminate.
  - rewrite main_status.
    pose proof (convert_models_no_exit DET_TAR DET_ONNX "Detection" w) as N1.
    destruct (convert_models DET_TAR DET_ONNX "Detection" w) as [[[[]|e|c] w1] t1];
      [| |now elim (N1 c)].
    + pose proof (convert_models_no_exit REC_TAR REC_ONNX "Recognition" w1) as N2.
      destruct (convert_models REC_TAR REC_ONNX "Recognition" w1)
        as [[[[]|e|c] w2] t2] eqn:E2; [| |now elim (N2 c)]; cbn [result_of fst].
      * split; [discriminate|].
        intros [[e H]|(w1' & t1' & e & H & H')]; [discriminate|].
        injection H as <- <-. rewrite E2 in H'. discriminate.
      * split; [|reflexivity]. intros _. right. exists w1, t1, e.
        rewrite E2. split; reflexivity.
    + split; [|reflexivity]. intros _. left. now exists e.
Qed.

(** ** The validator *)

Section ValidationInMain.

Context {P : Platform}.

Lemma convert_models_logs_banner (tar_path output_onnx : Path) (kind : string) (w : World) :
  In (Log (banner kind)) (trace_of (convert_models tar_path output_onnx kind w)).
Proof.
  rewrite convert_models_eq.
  destruct (extract_tar tar_path MODEL_DIR w) as [[[d|e|c] w1] t1]; try now left.
  destruct (paddle_to_onnx d output_onnx w1) as [[[u|e|c] w2] t2]; try now left.
  destruct (validate_onnx output_onnx w2) as [[r w3] t3]. now left.
Qed.

(** Once the first conversion has returned, the second one is started. *)
Lemma main_begins_second (w w1 : World) (t1 : list Event) :
  convert_models DET_TAR DET_ONNX "Detection" w = (Ok tt, w1, t1) ->
  In (Log (banner "Recognition")) (trace_of (main w)).
Proof.
  intros H. rewrite main_eq, H.
  pose proof (convert_models_logs_banner REC_TAR REC_ONNX "Recognition" w1) as B.
  destruct (convert_models REC_TAR REC_ONNX "Recognition" w1) as [[[u|e|c] w2] t2];
    cbn [trace_of snd] in *; right; apply in_or_app; right;
    try (apply in_or_app; left); exact B.
Qed.

End ValidationInMain.

(** C2: [validate_onnx] returns for every file and leaves the world as it
    was; when the load raises, or the schema check rejects the model, the last
    thing it does is log ["[ERROR] <name> failed validation: <error>"]; and in
    [main], once the extraction and the converter of the Detection model have
    succeeded, the Detection conversion returns whatever the validation found
    and the Recognition conversion is begun. *)
Theorem validate_onnx_swallows_failures {P : Platform} :
  (forall onnx_file w,
     result_of (validate_onnx onnx_file w) = Ok tt /\
     world_of (validate_onnx onnx_file w) = w) /\
  (forall onnx_file w e,
     onnx_load w (path_str onnx_file) = inl e ->
     trace_of (validate_onnx onnx_file w) =
       [Log ("Validating " ++ name onnx_file ++ "...");
        OnnxLoad (path_str onnx_file);
        Log ("[ERROR] " ++ name onnx_file ++ " failed validation: " ++ exc_str e)]) /\
  (forall onnx_file w model e,
     onnx_load w (path_str onnx_file) = inr model ->
     check_model model = Some e ->
     trace_of (validate_onnx onnx_file w) =
       [Log ("Validating " ++ name onnx_file ++ "...");
        OnnxLoad (path_str onnx_file);
        CheckModel;
        Log ("[ERROR] " ++ name onnx_file ++ " failed validation: " ++ exc_str e)]) /\
  (forall w paddle_dir w1 t1 w2 t2,
     extract_tar DET_TAR MODEL_DIR w = (Ok paddle_dir, w1, t1) ->
     paddle_to_onnx paddle_dir DET_ONNX w1 = (Ok tt, w2, t2) ->
     result_of (convert_models DET_TAR DET_ONNX "Detection" w) = Ok tt /\
     In (Log (banner "Recognition")) (trace_of (main w))).
Proof.
  split; [|split; [|split]].
  - intros onnx_file w.
    destruct (validate_onnx_returns onnx_file w) as [t ->]. now split.
  - intros onnx_file w e Hload. rewrite validate_onnx_eq. cbv zeta.
    rewrite Hload. reflexivity.
  - intros onnx_file w model e Hload Hcheck. rewrite validate_onnx_eq. cbv zeta.
    rewrite Hload, Hcheck. reflexivity.
  - intros w d w1 t1 w2 t2 Hx Hp. split.
    { rewrite convert_models_result, Hx, Hp. reflexivity. }
    pose proof (convert_models_eq DET_TAR DET_ONNX "Detection" w) as E.
    rewrite Hx, Hp in E.
    destruct (validate_onnx_returns DET_ONNX w2) as [t3 V]. rewrite V in E.
    exact (main_begins_second w w2 _ E).
Qed.

Lemma validate_onnx_swallows_failures_witness :
  @check_model Toy.rejected Toy.xy_model = Some (mkExc "ValidationError" "bad graph") /\
  @validate_onnx Toy.rejected (@DET_ONNX Toy.rejected) [("/app/output/det.onnx", 2621440)] =
    (Ok tt, [("/app/output/det.onnx", 2621440)],
     [Log "Validating det.onnx..."; OnnxLoad "/app/output/det.onnx"; CheckModel;
      Log "[ERROR] det.onnx failed validation: bad graph"]) /\
  @validate_onnx Toy.good (@DET_ONNX Toy.good) [] =
    (Ok tt, [],
     [Log "Validating det.onnx..."; OnnxLoad "/app/output/det.onnx";
      Log "[ERROR] det.onnx failed validation: [Errno 2] No such file or directory: '/app/output/det.onnx'"]) /\
  In (Log (banner "Recognition")) (trace_of (@main Toy.rejected Toy.fresh_disk)).
Proof.
  split; [reflexivity|]. split; [reflexivity|]. split; [reflexivity|].
  pose (P := Toy.rejected).
  pose (o := @extract_tar P (@DET_TAR P) (@MODEL_DIR P) Toy.fresh_disk).
  pose (o2 := @paddle_to_onnx P (@MODEL_DIR P // stem (@DET_TAR P)) (@DET_ONNX P) (world_of o)).
  destruct (@validate_onnx_swallows_failures P) as (_ & _ & _ & H).
  exact (proj2 (H Toy.fresh_disk (@MODEL_DIR P // stem (@DET_TAR P))
                  (world_of o) (trace_of o) (world_of o2) (trace_of o2)
                  ltac:(reflexivity) ltac:(reflexivity))).
Defined.

(** C7: for a file that loads and passes the schema check, [validate_onnx]
    logs ["[OK] <name> is valid"], then ["Inputs:"] and one line (name and
    type) per declared graph input in their order, then ["Outputs:"] and one
    line per declared graph output in their order, and returns. *)
Theorem validate_onnx_reports_signature {P : Platform}
  (onnx_file : Path) (w : World) (model : ModelProto TypeProto) :
  onnx_load w (path_str onnx_file) = inr model ->
  check_model model = None ->
  validate_onnx onnx_file w =
    (Ok tt, w,
     ([Log ("Validating " ++ name onnx_file ++ "...");
       OnnxLoad (path_str onnx_file);
       CheckModel;
       Log ("[OK] " ++ name onnx_file ++ " is valid");
       Log "Inputs:"]
      ++ value_info_entries (input (graph model))
      ++ [Log "Outputs:"]
      ++ value_info_entries (output (graph model)))%list) /\
  length (value_info_entries (input (graph model))) = length (input (graph model)) /\
  length (value_info_entries (output (graph model))) = length (output (graph model)) /\
  (forall i v, nth_error (input (graph model)) i = Some v ->
     nth_error (value_info_entries (input (graph model))) i =
       Some (Log ("  " ++ vi_name v ++ ": " ++ format_type (vi_type v)))) /\
  (forall i v, nth_error (output (graph model)) i = Some v ->
     nth_error (value_info_entries (output (graph model))) i =
       Some (Log ("  " ++ vi_name v ++ ": " ++ format_type (vi_type v)))).
Proof.
  intros Hload Hcheck. split.
  { rewrite validate_onnx_eq. cbv zeta. rewrite Hload, Hcheck. reflexivity. }
  unfold value_info_entries. rewrite !length_map.
  repeat split; intros i v H; rewrite nth_error_map, H; reflexivity.
Qed.

Lemma validate_onnx_reports_signature_witness :
  @validate_onnx Toy.good (@DET_ONNX Toy.good) [("/app/output/det.onnx", 2621440)] =
    (Ok tt, [("/app/output/det.onnx", 2621440)],
     [Log "Validating det.onnx..."; OnnxLoad "/app/output/det.onnx"; CheckModel;
      Log "[OK] det.onnx is valid";
      Log "Inputs:"; Log "  x: tensor(float)";
      Log "Outputs:"; Log "  y: tensor(float)"]).
Proof.
  exact (proj1 (@validate_onnx_reports_signature Toy.good (@DET_ONNX Toy.good)
                  [("/app/output/det.onnx", 2621440)] Toy.xy_model
                  ltac:(reflexivity) ltac:(reflexivity))).
Defined.

(** ** The converter's arguments *)

Section Commands.

Context {P : Platform}.

Lemma paddle_to_onnx_commands (paddle_dir onnx_out : Path) (w : World) :
  commands (trace_of (paddle_to_onnx paddle_dir onnx_out w)) =
  [paddle2onnx_cmd paddle_dir onnx_out].
Proof.
  rewrite paddle_to_onnx_eq. cbv zeta.
  destruct (subprocess_run _ w) as [[e|result] w']; [reflexivity|].
  destruct (returncode result =? 0); [|reflexivity].
  destruct (os_stat w' onnx_out); reflexivity.
Qed.

Lemma value_info_entries_commands (vs : list (ValueInfoProto TypeProto)) :
  commands (value_info_entries vs) = [].
Proof. induction vs as [|v vs IH]; [reflexivity | exact IH]. Qed.

Lemma validate_onnx_commands (onnx_file : Path) (w : World) :
  commands (trace_of (validate_onnx onnx_file w)) = [].
Proof.
  rewrite validate_onnx_eq. cbv zeta.
  destruct (onnx_load w _) as [e|model]; [reflexivity|].
  destruct (check_model model); [reflexivity|].
  cbn [trace_of snd app commands].
  rewrite commands_app, value_info_entries_commands. cbn [app commands].
  apply value_info_entries_commands.
Qed.

(** One conversion runs the converter at most once, on the directory named
    after the archive. *)
Lemma convert_models_commands (tar_path output_onnx : Path) (kind : string) (w : World) :
  commands (trace_of (convert_models tar_path output_onnx kind w)) = [] \/
  commands (trace_of (convert_models tar_path output_onnx kind w)) =
    [paddle2onnx_cmd (MODEL_DIR // stem tar_path) output_onnx].
Proof.
  rewrite convert_models_eq.
  pose proof (extract_tar_commands tar_path MODEL_DIR w) as Cx.
  pose proof (extract_tar_result tar_path MODEL_DIR w) as Rx.
  destruct (extract_tar tar_path MODEL_DIR w) as [[[d|e|c] w1] t1];
    cbn [trace_of result_of fst snd] in *; [|now left|now left].
  destruct Rx as [Rx|[e Rx]]; [injection Rx as ->|discriminate].
  right.
  pose proof (paddle_to_onnx_commands (MODEL_DIR // stem tar_path) output_onnx w1) as Cp.
  destruct (paddle_to_onnx _ output_onnx w1) as [[[u|e|c] w2] t2];
    cbn [trace_of snd] in *.
  - pose proof (validate_onnx_commands output_onnx w2) as Cv.
    destruct (validate_onnx output_onnx w2) as [[r w3] t3]. cbn [trace_of snd] in *.
    cbn [commands]. rewrite !commands_app, Cx, Cp, Cv. reflexivity.
  - cbn [commands]. rewrite !commands_app, Cx, Cp. reflexivity.
  - cbn [commands]. rewrite !commands_app, Cx, Cp. reflexivity.
Qed.

Lemma main_commands (w : World) (cmd : list string) :
  In cmd (commands (trace_of (main w))) ->
  cmd = paddle2onnx_cmd (MODEL_DIR // stem DET_TAR) DET_ONNX \/
  cmd = paddle2onnx_cmd (MODEL_DIR // stem REC_TAR) REC_ONNX.
Proof.
  rewrite main_eq.
  pose proof (convert_models_commands DET_TAR DET_ONNX "Detection" w) as C1.
  destruct (convert_models DET_TAR DET_ONNX "Detection" w) as [[[u|e|c] w1] t1];
    cbn [trace_of snd] in *.
  - pose proof (convert_models_commands REC_TAR REC_ONNX "Recognition" w1) as C2.
    destruct (convert_models REC_TAR REC_ONNX "Recognition" w1) as [[[u'|e|c] w2] t2];
      cbn [trace_of snd] in *; unfold header; cbn [commands];
      rewrite ?commands_app; cbn [commands closing conversion_failed];
      rewrite ?app_nil_r; intros H; apply in_app_or in H;
      destruct H as [H|H];
      (destruct C1 as [C1|C1]; rewrite C1 in * ) || (destruct C2 as [C2|C2]; rewrite C2 in * );
      cbn [In] in H; intuition auto.
  - unfold header. cbn [commands]. rewrite commands_app. cbn [commands conversion_failed].
    rewrite app_nil_r. intros H. destruct C1 as [C1|C1]; rewrite C1 in H;
      cbn [In] in H; intuition auto.
  - unfold header. cbn [commands]. intros H. destruct C1 as [C1|C1]; rewrite C1 in H;
      cbn [In] in H; intuition auto.
Qed.

End Commands.

(** C8: the argument vector of the converter is the tool's name, the model
    directory, the two fixed input file names, the output file, operator-set
    version 11 and the checker flag; [paddle_to_onnx] runs exactly that
    vector, once, and every process a run of [main] starts is that vector for
    the Detection or for the Recognition model. *)
Theorem converter_arguments_are_fixed {P : Platform} :
  (forall paddle_dir onnx_out,
     paddle2onnx_cmd paddle_dir onnx_out =
       [ "paddle2onnx";
         "--model_dir"; path_str paddle_dir;
         "--model_filename"; "inference.pdmodel";
         "--params_filename"; "inference.pdiparams";
         "--save_file"; path_str onnx_out;
         "--opset_version"; "11";
         "--enable_onnx_checker"; "True" ]) /\
  (forall paddle_dir onnx_out w,
     commands (trace_of (paddle_to_onnx paddle_dir onnx_out w)) =
       [paddle2onnx_cmd paddle_dir onnx_out]) /\
  (forall w cmd,
     In cmd (commands (trace_of (main w))) ->
     cmd = paddle2onnx_cmd (MODEL_DIR // stem DET_TAR) DET_ONNX \/
     cmd = paddle2onnx_cmd (MODEL_DIR // stem REC_TAR) REC_ONNX).
Proof.
  split; [reflexivity|]. split.
  - apply @paddle_to_onnx_commands.
  - apply @main_commands.
Qed.

(** ** The extractor *)

(** C9: whenever [extract_tar] returns, it returns the destination joined with
    the stem of the archive's name, whatever the platform, the world and the
    archive; after an extraction that succeeded it returns that path without
    looking at the world the extraction left, and on a concrete archive whose
    members are named otherwise the returned path does not exist afterwards. *)
Theorem extract_tar_returns_joined_path :
  (forall (P : Platform) (tar_path dest : Path) (w : World),
     result_of (extract_tar tar_path dest w) = Ok (dest // stem tar_path) \/
     exists e, result_of (extract_tar tar_path dest w) = Raise e) /\
  (forall (P1 P2 : Platform) (tar_path dest : Path)
          (w1 : @World P1) (w2 : @World P2) (p1 p2 : Path),
     result_of (@extract_tar P1 tar_path dest w1) = Ok p1 ->
     result_of (@extract_tar P2 tar_path dest w2) = Ok p2 ->
     p1 = p2) /\
  (forall (P : Platform) (tar_path dest : Path) (w w' : World) tar,
     pathlib_exists w (dest // stem tar_path) = inr false ->
     tarfile_open w tar_path = inr tar ->
     tarfile_extractall tar dest w = (None, w') ->
     result_of (extract_tar tar_path dest w) = Ok (dest // stem tar_path) /\
     world_of (extract_tar tar_path dest w) = w') /\
  (let o := @extract_tar Toy.flat (@DET_TAR Toy.flat) (@MODEL_DIR Toy.flat) Toy.fresh_disk in
   result_of o = Ok (mkPath "/" ["app"; "PP_OCR_models"; "ch_PP-OCRv4_det_infer"]) /\
   @pathlib_exists Toy.flat (world_of o)
     (mkPath "/" ["app"; "PP_OCR_models"; "ch_PP-OCRv4_det_infer"]) = inr false).
Proof.
  split; [|split; [|split]].
  - intros P tar_path dest w. apply extract_tar_result.
  - intros P1 P2 tar_path dest w1 w2 p1 p2 H1 H2.
    destruct (@extract_tar_result P1 tar_path dest w1) as [R1|[e R1]];
      rewrite R1 in H1; [|discriminate].
    destruct (@extract_tar_result P2 tar_path dest w2) as [R2|[e R2]];
      rewrite R2 in H2; [|discriminate].
    congruence.
  - intros P tar_path dest w w' tar Hstat Hopen Hextract.
    rewrite extract_tar_eq. cbv zeta. rewrite Hstat, Hopen, Hextract. now split.
  - cbv zeta. split; reflexivity.
Qed.

Lemma extract_tar_returns_joined_path_witness :
  let P := Toy.flat in
  let extract_path := @MODEL_DIR P // stem (@DET_TAR P) in
  let left_behind := ("/app/PP_OCR_models/inference", 4096) :: Toy.fresh_disk in
  @pathlib_exists P Toy.fresh_disk extract_path = inr false /\
  @tarfile_extractall P ["inference"] (@MODEL_DIR P) Toy.fresh_disk = (None, left_behind) /\
  result_of (@extract_tar P (@DET_TAR P) (@MODEL_DIR P) Toy.fresh_disk) = Ok extract_path /\
  world_of (@extract_tar P (@DET_TAR P) (@MODEL_DIR P) Toy.fresh_disk) = left_behind.
Proof.
  cbv zeta. split; [reflexivity|]. split; [reflexivity|].
  exact (proj1 (proj2 (proj2 extract_tar_returns_joined_path)) Toy.flat
           (@DET_TAR Toy.flat) (@MODEL_DIR Toy.flat) Toy.fresh_disk
           (("/app/PP_OCR_models/inference", 4096) :: Toy.fresh_disk)
           ["inference"]
           ltac:(reflexivity) ltac:(reflexivity) ltac:(reflexivity)).
Defined.

(** C3, as the specification words it, fails: on an archive whose only member
    is named [inference], two calls in a row on the same archive and
    destination both return the same path and both extract, since the
    directory named after the archive never appears. *)
Lemma extract_twice_may_extract_twice :
  let P := Toy.flat in
  let first := @extract_tar P (@DET_TAR P) (@MODEL_DIR P) Toy.fresh_disk in
  let second := @extract_tar P (@DET_TAR P) (@MODEL_DIR P) (world_of first) in
  result_of first = Ok (@MODEL_DIR P // stem (@DET_TAR P)) /\
  world_of first =
    ("/app/PP_OCR_models/inference", 4096) :: Toy.fresh_disk /\
  @pathlib_exists P (world_of first) (@MODEL_DIR P // stem (@DET_TAR P)) = inr false /\
  result_of second = Ok (@MODEL_DIR P // stem (@DET_TAR P)) /\
  extractions (trace_of first) = 1%nat /\
  extractions (trace_of second) = 1%nat /\
  ~ (extractions (trace_of first ++ trace_of second) <= 1)%nat.
Proof.
  cbv zeta. repeat (split; [reflexivity|]). vm_compute. lia.
Qed.

(** C3 (amended): when the directory named after the archive's stem exists
    under the destination, [extract_tar] extracts nothing, leaves the world as
    it is and returns that directory; two calls in a row that both return,
    return the same path; and when that directory exists once the first call
    is over, the two calls together extract at most once and the second
    returns the directory. *)
Theorem extract_tar_idempotent_when_directory_appears {P : Platform}
  (tar_path dest : Path) (w : World) :
  (pathlib_exists w (dest // stem tar_path) = inr true ->
     extract_tar tar_path dest w =
       (Ok (dest // stem tar_path), w, [Log ("Already extracted: " ++ stem tar_path)]) /\
     extractions (trace_of (extract_tar tar_path dest w)) = 0%nat) /\
  (let first := extract_tar tar_path dest w in
   let second := extract_tar tar_path dest (world_of first) in
   (forall p1 p2, result_of first = Ok p1 -> result_of second = Ok p2 -> p1 = p2) /\
   (pathlib_exists (world_of first) (dest // stem tar_path) = inr true ->
      (extractions (trace_of first ++ trace_of second) <= 1)%nat /\
      result_of second = Ok (dest // stem tar_path) /\
      world_of second = world_of first)).
Proof.
  split.
  - intros Hstat. rewrite extract_tar_eq. cbv zeta. rewrite Hstat.
    now split.
  - cbv zeta. split.
    + intros p1 p2 H1 H2.
      destruct (extract_tar_result tar_path dest w) as [R1|[e R1]];
        rewrite R1 in H1; [|discriminate].
      destruct (extract_tar_result tar_path dest (world_of (extract_tar tar_path dest w)))
        as [R2|[e R2]]; rewrite R2 in H2; [|discriminate].
      congruence.
    + intros Hstat.
      rewrite (extract_tar_eq tar_path dest (world_of _)). cbv zeta. rewrite Hstat.
      cbn [trace_of result_of world_of fst snd]. rewrite extractions_app.
      cbn [extractions]. split; [|split; reflexivity].
      rewrite extract_tar_eq. cbv zeta.
      destruct (pathlib_exists w _) as [e|[|]]; [cbn; lia | cbn; lia |].
      destruct (tarfile_open w tar_path) as [e|tar]; [cbn; lia|].
      destruct (tarfile_extractall tar dest w) as [[e|] w']; cbn; lia.
Qed.

Lemma extract_tar_idempotent_when_directory_appears_witness :
  let P := Toy.good in
  let first := @extract_tar P (@DET_TAR P) (@MODEL_DIR P) Toy.fresh_disk in
  let second := @extract_tar P (@DET_TAR P) (@MODEL_DIR P) (world_of first) in
  @pathlib_exists P (world_of first) (@MODEL_DIR P // stem (@DET_TAR P)) = inr true /\
  extractions (trace_of first) = 1%nat /\
  (extractions (trace_of first ++ trace_of second) <= 1)%nat /\
  result_of second = Ok (@MODEL_DIR P // stem (@DET_TAR P)) /\
  world_of second = world_of first.
Proof.
  cbv zeta. split; [reflexivity|]. split; [reflexivity|].
  exact (proj2 (proj2 (@extract_tar_idempotent_when_directory_appears Toy.good
                         (@DET_TAR Toy.good) (@MODEL_DIR Toy.good) Toy.fresh_disk))
           ltac:(reflexivity)).
Defined.

(** ** A converter that succeeds and leaves no file *)

(** C10: when the converter exits with status 0 and [os.stat] of the output
    path then raises, [paddle_to_onnx] raises that error after the process
    has run; the conversion it belongs to raises it too; and [main] logs it as
    a failed conversion and exits with status 1, for the Detection model and,
    once the Detection conversion has returned, for the Recognition model. *)
Theorem missing_output_is_fatal {P : Platform}
  (paddle_dir onnx_out : Path) (w w1 : World) (result : CompletedProcess)
  (e : PyException) :
  subprocess_run (paddle2onnx_cmd paddle_dir onnx_out) w = (inr result, w1) ->
  returncode result = 0 ->
  os_stat w1 onnx_out = inl e ->
  paddle_to_onnx paddle_dir onnx_out w =
    (Raise e, w1,
     [Log ("Converting " ++ name onnx_out ++ " to ONNX...");
      SubprocessRun (paddle2onnx_cmd paddle_dir onnx_out)]) /\
  (forall tar_path kind w0 t0,
     extract_tar tar_path MODEL_DIR w0 = (Ok paddle_dir, w, t0) ->
     result_of (convert_models tar_path onnx_out kind w0) = Raise e) /\
  (forall w0 t0,
     onnx_out = DET_ONNX ->
     extract_tar DET_TAR MODEL_DIR w0 = (Ok paddle_dir, w, t0) ->
     result_of (main w0) = Exit 1 /\
     exit_status (result_of (main w0)) = 1 /\
     last (trace_of (main w0)) (Log "") = conversion_failed e) /\
  (forall w0 wd td t0,
     onnx_out = REC_ONNX ->
     convert_models DET_TAR DET_ONNX "Detection" w0 = (Ok tt, wd, td) ->
     extract_tar REC_TAR MODEL_DIR wd = (Ok paddle_dir, w, t0) ->
     result_of (main w0) = Exit 1 /\
     exit_status (result_of (main w0)) = 1 /\
     last (trace_of (main w0)) (Log "") = conversion_failed e).
Proof.
  intros Hrun Hcode Hstat.
  assert (Hp : paddle_to_onnx paddle_dir onnx_out w =
    (Raise e, w1,
     [Log ("Converting " ++ name onnx_out ++ " to ONNX...");
      SubprocessRun (paddle2onnx_cmd paddle_dir onnx_out)])).
  { rewrite paddle_to_onnx_eq. cbv zeta. rewrite Hrun, Hcode, Hstat. reflexivity. }
  assert (Hc : forall tar_path kind w0 t0,
     extract_tar tar_path MODEL_DIR w0 = (Ok paddle_dir, w, t0) ->
     exists t, convert_models tar_path onnx_out kind w0 = (Raise e, w1, t)).
  { intros tar_path kind w0 t0 Hx. rewrite convert_models_eq, Hx, Hp.
    eexists. reflexivity. }
  split; [exact Hp|]. split; [|split].
  - intros tar_path kind w0 t0 Hx.
    destruct (Hc tar_path kind w0 t0 Hx) as [t ->]. reflexivity.
  - intros w0 t0 -> Hx. destruct (Hc DET_TAR "Detection" w0 t0 Hx) as [t E].
    rewrite main_eq, E. cbn [result_of trace_of exit_status fst snd].
    repeat split.
    change (header w0 :: t ++ [conversion_failed e])%list
      with ((header w0 :: t) ++ [conversion_failed e])%list.
    apply last_snoc.
  - intros w0 wd td t0 -> Hd Hx. destruct (Hc REC_TAR "Recognition" wd t0 Hx) as [t E].
    rewrite main_eq, Hd, E. cbn [result_of trace_of exit_status fst snd].
    repeat split.
    replace (header w0 :: td ++ t ++ [conversion_failed e])%list
      with ((header w0 :: td ++ t) ++ [conversion_failed e])%list
      by (cbn [app]; now rewrite <- app_assoc).
    apply last_snoc.
Qed.

Lemma missing_output_is_fatal_witness :
  let P := Toy.silent in
  let o := @extract_tar P (@DET_TAR P) (@MODEL_DIR P) Toy.fresh_disk in
  returncode Toy.succeeded = 0 /\
  @os_stat P (world_of o) (@DET_ONNX P) = inl (Toy.no_such_file "/app/output/det.onnx") /\
  result_of (@main P Toy.fresh_disk) = Exit 1 /\
  exit_status (result_of (@main P Toy.fresh_disk)) = 1 /\
  last (trace_of (@main P Toy.fresh_disk)) (Log "") =
    Log "[ERROR] Conversion failed: [Errno 2] No such file or directory: '/app/output/det.onnx'".
Proof.
  cbv zeta. split; [reflexivity|]. split; [reflexivity|].
  pose (P := Toy.silent).
  pose (o := @extract_tar P (@DET_TAR P) (@MODEL_DIR P) Toy.fresh_disk).
  destruct (@missing_output_is_fatal P (@MODEL_DIR P // stem (@DET_TAR P)) (@DET_ONNX P)
              (world_of o) (world_of o) Toy.succeeded
              (Toy.no_such_file "/app/output/det.onnx")
              ltac:(reflexivity) ltac:(reflexivity) ltac:(reflexivity))
    as (_ & _ & H & _).
  exact (H Toy.fresh_disk (trace_of o) ltac:(reflexivity) ltac:(reflexivity)).
Defined.

(** ** The size line *)

Lemma round_half_even_near (num den : Z) :
  0 < den -> Z.abs (round_half_even num den * den - num) * 2 <= den.
Proof.
  intros Hden. unfold round_half_even.
  pose proof (Z.div_mod num den ltac:(lia)) as D.
  pose proof (Z.mod_pos_bound num den Hden) as B.
  destruct (Z.ltb_spec (2 * (num mod den)) den);
    [|destruct (Z.ltb_spec den (2 * (num mod den))); [|destruct (Z.even (num / den))]];
    nia.
Qed.

Lemma round_half_even_exact (k den : Z) :
  0 < den -> round_half_even (k * den) den = k.
Proof.
  intros Hden. unfold round_half_even.
  rewrite Z.div_mul, Z.mod_mul by lia.
  destruct (Z.ltb_spec (2 * 0) den); [reflexivity | lia].
Qed.

Lemma round_half_even_nonneg (num den : Z) :
  0 <= num -> 0 < den -> 0 <= round_half_even num den.
Proof.
  intros Hnum Hden. unfold round_half_even.
  pose proof (Z.div_pos num den Hnum Hden).
  destruct (_ <? _); [|destruct (_ <? _); [|destruct (Z.even _)]]; lia.
Qed.

(** [n / 2**20] for a file size: the binade is that of [n], twenty lower. *)
Lemma int_true_div_mebi (n : Z) :
  0 < n < 2 ^ 63 ->
  int_true_div n (1024 ^ 2) =
  mkFloat (round_half_even (n * 2 ^ (72 - Z.log2 n)) (2 ^ 20)) (Z.log2 n - 72).
Proof.
  intros Hn. unfold int_true_div.
  destruct (Z.eqb_spec n 0) as [->|_]; [lia|].
  change (Z.log2 (1024 ^ 2)) with 20. change (1024 ^ 2) with (2 ^ 20).
  pose proof (Z.log2_spec n ltac:(lia)) as [Lo Hi].
  pose proof (Z.log2_nonneg n) as K0.
  assert (K : Z.log2 n < 63) by (apply Z.log2_lt_pow2; lia).
  assert (B : (let '(a, b) := scale2 n (2 ^ 20) (Z.log2 n - 20) in b <=? a) = true).
  { unfold scale2. destruct (Z.leb_spec 0 (Z.log2 n - 20)).
    - apply Z.leb_le. rewrite <- Z.pow_add_r by lia.
      replace (20 + (Z.log2 n - 20)) with (Z.log2 n) by lia. exact Lo.
    - apply Z.leb_le.
      replace (2 ^ 20) with (2 ^ Z.log2 n * 2 ^ (- (Z.log2 n - 20))).
      + apply Z.mul_le_mono_nonneg_r; [apply Z.pow_nonneg; lia | exact Lo].
      + rewrite <- Z.pow_add_r by lia. f_equal. lia. }
  destruct (scale2 n (2 ^ 20) (Z.log2 n - 20)) as [a b]. rewrite B.
  unfold scale2. destruct (Z.leb_spec 0 (Z.log2 n - 20 - 52)); [lia|].
  f_equal; [f_equal; f_equal; f_equal; lia | lia].
Qed.

(** The float [n / 2**20] is within a relative error of [2**-53] of the
    quotient, and is the quotient itself below [2**53]. *)
Lemma size_float_error (n : Z) :
  0 <= n < 2 ^ 63 ->
  (Qabs (float_value (int_true_div n (1024 ^ 2)) - (n # 2 ^ 20))
   <= (n # 2 ^ 20) * (1 # 2 ^ 53))%Q.
Proof.
  intros Hn. destruct (Z.eq_dec n 0) as [->|Hz]; [vm_compute; discriminate|].
  rewrite int_true_div_mebi by lia.
  pose proof (Z.log2_spec n ltac:(lia)) as [Lo Hi].
  pose proof (Z.log2_nonneg n) as K0.
  assert (K : Z.log2 n < 63) by (apply Z.log2_lt_pow2; lia).
  unfold float_value. cbn [exponent mantissa].
  destruct (Z.leb_spec 0 (Z.log2 n - 72)); [lia|].
  replace (- (Z.log2 n - 72)) with (72 - Z.log2 n) by lia.
  set (a := 2 ^ (72 - Z.log2 n)).
  assert (Ha : 0 < a) by (apply Z.pow_pos_nonneg; lia).
  pose proof (round_half_even_near (n * a) (2 ^ 20) ltac:(lia)) as R.
  set (m := round_half_even (n * a) (2 ^ 20)) in *.
  assert (X : 2 ^ 72 <= n * a).
  { replace (2 ^ 72) with (2 ^ Z.log2 n * a).
    - apply Z.mul_le_mono_nonneg_r; lia.
    - unfold a. rewrite <- Z.pow_add_r by lia. f_equal. lia. }
  apply Qabs_Qle_condition. unfold Qle, Qminus, Qplus, Qopp, Qmult. cbn [Qnum Qden].
  rewrite ?Pos2Z.inj_mul, ?Z2Pos.id by lia.
  change (Z.pos (2 ^ 20)) with 1048576. change (Z.pos (2 ^ 53)) with 9007199254740992.
  change (2 ^ 20) with 1048576 in R. change (2 ^ 72) with 4722366482869645213696 in X.
  replace (- n * a) with (- (n * a)) by ring.
  replace (n * 1 * (a * 1048576)) with (n * a * 1048576) by ring.
  replace (- (n * 1) * (a * 1048576)) with (- (n * a) * 1048576) by ring.
  clearbody m. generalize dependent (n * a). intros p R X. lia.
Qed.

Lemma size_float_exact (n : Z) :
  0 <= n < 2 ^ 53 ->
  (float_value (int_true_div n (1024 ^ 2)) == n # 2 ^ 20)%Q.
Proof.
  intros Hn. destruct (Z.eq_dec n 0) as [->|Hz]; [reflexivity|].
  rewrite int_true_div_mebi by lia.
  pose proof (Z.log2_nonneg n) as K0.
  assert (K : Z.log2 n < 53) by (apply Z.log2_lt_pow2; lia).
  unfold float_value. cbn [exponent mantissa].
  destruct (Z.leb_spec 0 (Z.log2 n - 72)); [lia|].
  replace (- (Z.log2 n - 72)) with (72 - Z.log2 n) by lia.
  replace (n * 2 ^ (72 - Z.log2 n)) with (n * 2 ^ (52 - Z.log2 n) * 2 ^ 20).
  - rewrite round_half_even_exact by lia.
    unfold Qeq. cbn [Qnum Qden].
    rewrite Z2Pos.id by (apply Z.pow_pos_nonneg; lia).
    change (Z.pos (2 ^ 20)) with (2 ^ 20).
    rewrite <- !Z.mul_assoc, <- !Z.pow_add_r by lia. do 2 f_equal. lia.
  - rewrite <- Z.mul_assoc, <- Z.pow_add_r by lia. do 2 f_equal. lia.
Qed.

(** The hundredths printed are the integer nearest to a hundred times the
    float. *)
Lemma hundredths_near (x : float) :
  (Qabs (inject_Z (hundredths x) - inject_Z 100 * float_value x) <= 1 # 2)%Q.
Proof.
  destruct x as [m e]. unfold hundredths, float_value, scale2.
  cbn [mantissa exponent].
  apply Qabs_Qle_condition. unfold Qle, Qminus, Qplus, Qopp, Qmult, inject_Z.
  destruct (Z.leb_spec 0 (- e)) as [Hneg|Hpos]; destruct (Z.leb_spec 0 e) as [H0|H0];
    try lia; cbn [Qnum Qden]; rewrite ?Z.mul_1_l.
  - assert (E : e = 0) by lia. subst e. change (2 ^ (- 0)) with 1. change (2 ^ 0) with 1.
    pose proof (round_half_even_near (100 * m) 1 ltac:(lia)) as R.
    set (h := round_half_even (100 * m) 1) in *.
    rewrite ?Pos2Z.inj_mul. change (Z.pos 1) with 1. lia.
  - assert (Ha : 0 < 2 ^ (- e)) by (apply Z.pow_pos_nonneg; lia).
    pose proof (round_half_even_near (100 * m) (2 ^ (- e)) Ha) as R.
    set (h := round_half_even (100 * m) (2 ^ (- e))) in *.
    rewrite ?Pos2Z.inj_mul, ?Z2Pos.id by lia. change (Z.pos 1) with 1.
    clearbody h. generalize dependent (2 ^ (- e)). intros a Ha R. nia.
  - replace (- - e) with e by lia.
    pose proof (round_half_even_near (100 * m * 2 ^ e) 1 ltac:(lia)) as R.
    set (h := round_half_even (100 * m * 2 ^ e) 1) in *.
    rewrite ?Pos2Z.inj_mul. change (Z.pos 1) with 1.
    clearbody h. generalize dependent (2 ^ e). intros a R. lia.
Qed.

Lemma length_append (a b : string) :
  String.length (a ++ b) = (String.length a + String.length b)%nat.
Proof. induction a as [|c a IH]; simpl; [reflexivity | now rewrite IH]. Qed.

Lemma str_int_digit (d : Z) : 0 <= d <= 9 -> String.length (str_int d) = 1%nat.
Proof.
  intros H.
  assert (d = 0 \/ d = 1 \/ d = 2 \/ d = 3 \/ d = 4 \/ d = 5 \/ d = 6 \/ d = 7 \/
          d = 8 \/ d = 9) as C by lia.
  repeat (destruct C as [->|C]; [reflexivity|]). now subst.
Qed.

Lemma two_digits_length (k : Z) : 0 <= k < 100 -> String.length (two_digits k) = 2%nat.
Proof.
  intros H. unfold two_digits. rewrite length_append.
  rewrite !str_int_digit; [reflexivity | |].
  - pose proof (Z.mod_pos_bound k 10 ltac:(lia)). lia.
  - pose proof (Z.div_pos k 10 ltac:(lia) ltac:(lia)).
    assert (k / 10 < 10) by (apply Z.div_lt_upper_bound; lia). lia.
Qed.

Lemma hundredths_size_nonneg (n : Z) :
  0 <= n < 2 ^ 63 -> 0 <= hundredths (int_true_div n (1024 ^ 2)).
Proof.
  intros Hn. destruct (Z.eq_dec n 0) as [->|Hz]; [vm_compute; discriminate|].
  rewrite int_true_div_mebi by lia.
  pose proof (Z.log2_nonneg n) as K0.
  assert (K : Z.log2 n < 63) by (apply Z.log2_lt_pow2; lia).
  unfold hundredths, scale2. cbn [mantissa exponent].
  destruct (Z.leb_spec 0 (- (Z.log2 n - 72))); [|lia].
  apply round_half_even_nonneg.
  - apply Z.mul_nonneg_nonneg; [lia|].
    apply round_half_even_nonneg; [|lia].
    apply Z.mul_nonneg_nonneg; [lia | apply Z.pow_nonneg; lia].
  - rewrite Z.mul_1_l. apply Z.pow_pos_nonneg; lia.
Qed.

(** *** What the digits printed mean *)

Ltac read_digit :=
  lazymatch goal with
  | |- context [digit_value ?c] =>
      let v := eval vm_compute in (digit_value c) in
      change (digit_value c) with v; cbv beta iota
  end.

Lemma decimal_acc_uint (d : Decimal.uint) (acc : positive) :
  decimal_acc (Z.pos acc) (NilEmpty.string_of_uint d) =
  Some (Z.pos (Pos.of_uint_acc d acc)).
Proof.
  revert acc.
  induction d as [|d IH|d IH|d IH|d IH|d IH|d IH|d IH|d IH|d IH|d IH]; intros acc;
    [reflexivity|..];
    cbn [NilEmpty.string_of_uint decimal_acc Pos.of_uint_acc];
    read_digit; rewrite <- IH; f_equal; lia.
Qed.

Lemma decimal_acc_of_uint (d : Decimal.uint) :
  decimal_acc 0 (NilEmpty.string_of_uint d) = Some (Z.of_N (Pos.of_uint d)).
Proof.
  induction d as [|d IH|d IH|d IH|d IH|d IH|d IH|d IH|d IH|d IH|d IH];
    [reflexivity | exact IH |..];
    cbn [NilEmpty.string_of_uint decimal_acc Pos.of_uint];
    read_digit; cbn [Z.of_N]; rewrite <- decimal_acc_uint; f_equal.
Qed.

(** Reading back what [str] printed gives the number. *)
Lemma decimal_value_str_int (n : Z) : 0 <= n -> decimal_value (str_int n) = Some n.
Proof.
  intros Hn. destruct n as [|p|p]; [reflexivity| |lia].
  unfold str_int. cbn [Z.to_int NilZero.string_of_int].
  pose proof (DecimalPos.Unsigned.to_uint_nonnil p) as NN.
  pose proof (DecimalPos.Unsigned.of_to p) as OT.
  unfold NilZero.string_of_uint.
  destruct (Pos.to_uint p) as [|d|d|d|d|d|d|d|d|d|d] eqn:E; [congruence|..];
    unfold decimal_value;
    lazymatch goal with
    | |- match NilEmpty.string_of_uint ?u with _ => _ end = _ =>
        change (decimal_acc 0 (NilEmpty.string_of_uint u) = Some (Z.pos p));
        rewrite decimal_acc_of_uint, OT; reflexivity
    end.
Qed.

(** [str] prints no leading zero. *)
Lemma str_int_no_leading_zero (n : Z) :
  0 <= n -> str_int n = "0" \/ String.get 0 (str_int n) <> Some "0"%char.
Proof.
  intros Hn. destruct n as [|p|p]; [now left| |lia]. right.
  unfold str_int. cbn [Z.to_int NilZero.string_of_int].
  pose proof (DecimalPos.Unsigned.to_uint_nonzero p) as NZ.
  assert (U : Decimal.unorm (Pos.to_uint p) = Pos.to_uint p).
  { rewrite <- DecimalPos.Unsigned.to_of, DecimalPos.Unsigned.of_to. reflexivity. }
  pose proof (DecimalFacts.nzhead_nonzero (Pos.to_uint p)) as H0.
  pose proof (DecimalFacts.unorm_0 (Pos.to_uint p)) as Z0.
  assert (NH : Decimal.nzhead (Pos.to_uint p) = Pos.to_uint p).
  { rewrite <- DecimalFacts.unorm_nzhead; [exact U|].
    intros C. apply NZ. rewrite <- U. now apply Z0. }
  destruct (Pos.to_uint p) as [|d|d|d|d|d|d|d|d|d|d]; cbn; try discriminate.
  exfalso. exact (H0 d NH).
Qed.

Lemma digit_of_str_int (d : Z) :
  0 <= d <= 9 -> exists c, str_int d = String c EmptyString /\ digit_value c = Some d.
Proof.
  intros H.
  assert (d = 0 \/ d = 1 \/ d = 2 \/ d = 3 \/ d = 4 \/ d = 5 \/ d = 6 \/ d = 7 \/
          d = 8 \/ d = 9) as C by lia.
  repeat (destruct C as [->|C]; [eexists; split; reflexivity|]).
  subst. eexists; split; reflexivity.
Qed.

(** The text [i.dd]: its integer part writes [h / 100] and its two decimals
    write [h mod 100]. *)
Lemma format_reads_back (h : Z) :
  0 <= h ->
  exists ip d1 d2 a b,
    str_int (h / 100) ++ "." ++ two_digits (h mod 100) =
      ip ++ "." ++ String d1 (String d2 EmptyString) /\
    decimal_value ip = Some (h / 100) /\
    (ip = "0" \/ String.get 0 ip <> Some "0"%char) /\
    digit_value d1 = Some a /\
    digit_value d2 = Some b /\
    100 * (h / 100) + 10 * a + b = h.
Proof.
  intros Hh.
  pose proof (Z.mod_pos_bound h 100 ltac:(lia)) as B.
  pose proof (Z.div_pos h 100 Hh ltac:(lia)) as Q.
  assert (0 <= h mod 100 / 10 <= 9) as B1.
  { split; [apply Z.div_pos; lia|].
    assert (h mod 100 / 10 < 10) by (apply Z.div_lt_upper_bound; lia). lia. }
  pose proof (Z.mod_pos_bound (h mod 100) 10 ltac:(lia)) as B2.
  destruct (digit_of_str_int (h mod 100 / 10) B1) as (d1 & E1 & V1).
  destruct (digit_of_str_int ((h mod 100) mod 10) ltac:(lia)) as (d2 & E2 & V2).
  exists (str_int (h / 100)), d1, d2, (h mod 100 / 10), ((h mod 100) mod 10).
  unfold two_digits. rewrite E1, E2.
  split; [reflexivity|]. split; [now apply decimal_value_str_int|].
  split; [now apply str_int_no_leading_zero|]. split; [exact V1|]. split; [exact V2|].
  pose proof (Z.div_mod h 100 ltac:(lia)). pose proof (Z.div_mod (h mod 100) 10 ltac:(lia)).
  lia.
Qed.

(** The number printed, [h / 100], is the size in MiB up to half a hundredth
    and the rounding of the division. *)
Lemma logged_number_near (n : Z) :
  0 <= n < 2 ^ 63 ->
  (Qabs ((hundredths (int_true_div n (1024 ^ 2)) # 100) - (n # 2 ^ 20))
   <= (1 # 200) + (n # 2 ^ 20) * (1 # 2 ^ 53))%Q.
Proof.
  intros Hn.
  pose proof (size_float_error n Hn) as F.
  pose proof (hundredths_near (int_true_div n (1024 ^ 2))) as H.
  set (f := float_value (int_true_div n (1024 ^ 2))) in *.
  set (h := hundredths (int_true_div n (1024 ^ 2))) in *.
  apply Qabs_Qle_condition in F. apply Qabs_Qle_condition in H.
  apply Qabs_Qle_condition.
  assert (E : (h # 100 == inject_Z h * (1 # 100))%Q).
  { unfold Qeq, Qmult, inject_Z. cbn [Qnum Qden]. lia. }
  rewrite E. clearbody f h.
  change (2 ^ 20)%positive with 1048576%positive in *.
  change (2 ^ 53)%positive with 9007199254740992%positive in *.
  change (inject_Z 100) with (100 # 1)%Q in H.
  generalize dependent (inject_Z h). intros x H E.
  generalize dependent (n # 1048576)%Q. intros q F.
  split; lra.
Qed.

(** C5: when the converter exits with status 0 and the output file has
    [st_size] bytes (a file size, below [2**63]), [paddle_to_onnx] returns and
    its last log line is ["ONNX model saved: <path> (<i>.<dd> MB)"], where the
    float formatted is [st_size / 2**20] up to a relative rounding error of
    [2**-53] (none at all below [2**53] bytes), and [<i>.<dd>] is that float
    rounded to hundredths: an integer part, a point and exactly two digits.
    Read back as decimal digits, [<i>] writes [h / 100] without a leading zero
    and [<dd>] writes [h mod 100], where [h / 100] is within [0.005] and the
    rounding of the division of the size in MiB. *)
Theorem logged_size_is_megabytes {P : Platform}
  (paddle_dir onnx_out : Path) (w w1 : World) (result : CompletedProcess) (st_size : Z) :
  subprocess_run (paddle2onnx_cmd paddle_dir onnx_out) w = (inr result, w1) ->
  returncode result = 0 ->
  os_stat w1 onnx_out = inr st_size ->
  0 <= st_size < 2 ^ 63 ->
  let size := int_true_div st_size (1024 ^ 2) in
  let h := hundredths size in
  paddle_to_onnx paddle_dir onnx_out w =
    (Ok tt, w1,
     [Log ("Converting " ++ name onnx_out ++ " to ONNX...");
      SubprocessRun (paddle2onnx_cmd paddle_dir onnx_out);
      Log ("ONNX model saved: " ++ path_str onnx_out ++ " (" ++
           (str_int (h / 100) ++ "." ++ two_digits (h mod 100)) ++ " MB)")]) /\
  (Qabs (float_value size - (st_size # 2 ^ 20)) <= (st_size # 2 ^ 20) * (1 # 2 ^ 53))%Q /\
  (st_size < 2 ^ 53 -> (float_value size == st_size # 2 ^ 20)%Q) /\
  (Qabs (inject_Z h - inject_Z 100 * float_value size) <= 1 # 2)%Q /\
  0 <= h /\
  String.length (two_digits (h mod 100)) = 2%nat /\
  (exists ip d1 d2 a b,
     str_int (h / 100) ++ "." ++ two_digits (h mod 100) =
       ip ++ "." ++ String d1 (String d2 EmptyString) /\
     decimal_value ip = Some (h / 100) /\
     (ip = "0" \/ String.get 0 ip <> Some "0"%char) /\
     digit_value d1 = Some a /\
     digit_value d2 = Some b /\
     100 * (h / 100) + 10 * a + b = h) /\
  (Qabs ((h # 100) - (st_size # 2 ^ 20))
   <= (1 # 200) + (st_size # 2 ^ 20) * (1 # 2 ^ 53))%Q.
Proof.
  intros Hrun Hcode Hstat Hsize size h.
  split.
  { rewrite paddle_to_onnx_eq. cbv zeta. rewrite Hrun, Hcode, Hstat. reflexivity. }
  split; [apply size_float_error; exact Hsize|].
  split; [intros Hsmall; apply size_float_exact; lia|].
  split; [apply hundredths_near|].
  assert (Hh : 0 <= h) by (apply hundredths_size_nonneg; exact Hsize).
  split; [exact Hh|].
  split; [apply two_digits_length; apply Z.mod_pos_bound; lia|].
  split; [exact (format_reads_back h Hh)|].
  exact (logged_number_near st_size Hsize).
Qed.

Lemma logged_size_is_megabytes_witness :
  let P := Toy.good in
  let disk := ("/app/PP_OCR_models/ch_PP-OCRv4_det_infer", 4096) :: Toy.fresh_disk in
  let paddle_dir := @MODEL_DIR P // stem (@DET_TAR P) in
  @os_stat P (("/app/output/det.onnx", 2621440) :: disk) (@DET_ONNX P) = inr 2621440 /\
  0 <= 2621440 < 2 ^ 63 /\
  @paddle_to_onnx P paddle_dir (@DET_ONNX P) disk =
    (Ok tt, ("/app/output/det.onnx", 2621440) :: disk,
     [Log "Converting det.onnx to ONNX...";
      SubprocessRun (paddle2onnx_cmd paddle_dir (@DET_ONNX P));
      Log "ONNX model saved: /app/output/det.onnx (2.50 MB)"]).
Proof.
  cbv zeta. split; [reflexivity|]. split; [lia|].
  pose (P := Toy.good).
  pose (disk := ("/app/PP_OCR_models/ch_PP-OCRv4_det_infer", 4096) :: Toy.fresh_disk).
  exact (proj1 (@logged_size_is_megabytes P (@MODEL_DIR P // stem (@DET_TAR P))
                  (@DET_ONNX P) disk (("/app/output/det.onnx", 2621440) :: disk)
                  Toy.succeeded 2621440
                  ltac:(reflexivity) ltac:(reflexivity) ltac:(reflexivity) ltac:(lia))).
Defined.

(** * Further properties of the script *)

(** ** [run_cmd]: the value returned *)

Example strip_removes_unicode_whitespace :
  strip ("  saved model " ++ nbsp ++ nl) = "saved model" /\
  strip (nbsp ++ "ok" ++ String (ascii_of_nat 194) (String (ascii_of_nat 133) "")) = "ok" /\
  strip (" a" ++ nbsp ++ "b ") = "a" ++ nbsp ++ "b".
Proof. repeat split; reflexivity. Qed.

Lemma join_app (l1 l2 : list string) : join (l1 ++ l2) = join l1 ++ join l2.
Proof.
  induction l1 as [|c l1 IH]; [reflexivity|].
  unfold join in *. cbn [app fold_right]. now rewrite IH, append_assoc.
Qed.

(** Cutting a text into characters loses nothing. *)
Lemma join_chars (s : string) : join (chars s) = s.
Proof.
  assert (H : forall n s, (String.length s <= n)%nat -> join (chars s) = s).
  { clear s. induction n as [|n IH]; intros s Hn.
    - destruct s; [reflexivity | cbn in Hn; lia].
    - destruct s as [|a t]; [reflexivity|]. cbn [String.length] in Hn.
      cbn [chars]. cbv zeta.
      destruct (nat_of_ascii a <? 192)%nat.
      { cbn [join fold_right append]. f_equal. apply IH. lia. }
      destruct (nat_of_ascii a <? 224)%nat.
      { destruct t as [|b u]; [reflexivity|]. cbn [String.length] in Hn.
        cbn [join fold_right append]. do 2 f_equal. apply IH. lia. }
      destruct (nat_of_ascii a <? 240)%nat.
      { destruct t as [|b [|c u]]; try (cbn; now rewrite ?append_empty_r).
        cbn [String.length] in Hn.
        cbn [join fold_right append]. do 3 f_equal. apply IH. lia. }
      destruct t as [|b [|c [|d u]]]; try (cbn; now rewrite ?append_empty_r).
      cbn [String.length] in Hn.
      cbn [join fold_right append]. do 4 f_equal. apply IH. lia. }
  exact (H (String.length s) s (le_n _)).
Qed.

Lemma lstrip_chars_split (l : list string) :
  exists pre,
    l = (pre ++ lstrip_chars l)%list /\
    forallb isspace pre = true /\
    forall c, hd_error (lstrip_chars l) = Some c -> isspace c = false.
Proof.
  induction l as [|c l (pre & E & Hpre & Hhd)].
  - exists []. repeat split. discriminate.
  - cbn [lstrip_chars]. destruct (isspace c) eqn:Hc.
    + exists (c :: pre). cbn [app forallb]. rewrite Hc, Hpre, <- E. now repeat split.
    + exists []. repeat split. intros c' [= <-]. exact Hc.
Qed.

Lemma forallb_rev {A} (f : A -> bool) (l : list A) :
  forallb f l = true -> forallb f (rev l) = true.
Proof.
  rewrite !forallb_forall. intros H x Hx. apply H. now apply in_rev.
Qed.

Lemma rstrip_chars_split (l : list string) :
  exists post,
    l = (rstrip_chars l ++ post)%list /\
    forallb isspace post = true /\
    forall c, hd_error (rev (rstrip_chars l)) = Some c -> isspace c = false.
Proof.
  unfold rstrip_chars.
  destruct (lstrip_chars_split (rev l)) as (pre & E & Hpre & Hhd).
  exists (rev pre). split; [|split].
  - rewrite <- rev_app_distr, <- E. now rewrite rev_involutive.
  - now apply forallb_rev.
  - rewrite rev_involutive. exact Hhd.
Qed.

(** X1: when the process exits with status 0, [run_cmd] returns (it does not
    raise) the captured standard output without the whitespace around it,
    Unicode whitespace included: the characters of the output are a run of
    whitespace characters, the characters of the value, and a run of
    whitespace characters, and the value neither starts nor ends with a
    whitespace character. *)
Theorem run_cmd_returns_stripped_stdout {P : Platform}
  (cmd : list string) (error_msg : string) (w w' : World) (result : CompletedProcess) :
  subprocess_run cmd w = (inr result, w') ->
  returncode result = 0 ->
  exists pre mid post,
    run_cmd cmd error_msg w = (Ok (join mid), w', [SubprocessRun cmd]) /\
    chars (stdout result) = (pre ++ mid ++ post)%list /\
    stdout result = join pre ++ join mid ++ join post /\
    forallb isspace pre = true /\
    forallb isspace post = true /\
    (forall c, hd_error mid = Some c -> isspace c = false) /\
    (forall c, hd_error (rev mid) = Some c -> isspace c = false).
Proof.
  intros Hrun Hcode.
  destruct (lstrip_chars_split (chars (stdout result))) as (pre & Epre & Hpre & Hhd).
  destruct (rstrip_chars_split (lstrip_chars (chars (stdout result))))
    as (post & Epost & Hpost & Hlast).
  exists pre, (rstrip_chars (lstrip_chars (chars (stdout result)))), post.
  rewrite run_cmd_eq, Hrun, Hcode. cbn [Z.eqb].
  split; [reflexivity|].
  assert (E : chars (stdout result) =
              (pre ++ rstrip_chars (lstrip_chars (chars (stdout result))) ++ post)%list)
    by (rewrite <- Epost; exact Epre).
  split; [exact E|]. split.
  { rewrite <- !join_app, <- E. symmetry. apply join_chars. }
  split; [exact Hpre|]. split; [exact Hpost|]. split; [|exact Hlast].
  intros c Hc. apply Hhd. rewrite Epost.
  destruct (rstrip_chars (lstrip_chars (chars (stdout result)))); [discriminate | exact Hc].
Qed.

Lemma run_cmd_returns_stripped_stdout_witness :
  returncode padded_output = 0 /\
  stdout padded_output = "  saved model " ++ nbsp ++ nl /\
  strip (stdout padded_output) = "saved model" /\
  exists pre mid post,
    @run_cmd padding ["paddle2onnx"] "Paddle to ONNX conversion failed" [] =
      (Ok (join mid), [], [SubprocessRun ["paddle2onnx"]]) /\
    chars (stdout padded_output) = (pre ++ mid ++ post)%list /\
    stdout padded_output = join pre ++ join mid ++ join post /\
    forallb isspace pre = true /\
    forallb isspace post = true /\
    (forall c, hd_error mid = Some c -> isspace c = false) /\
    (forall c, hd_error (rev mid) = Some c -> isspace c = false).
Proof.
  split; [reflexivity|]. split; [reflexivity|]. split; [reflexivity|].
  exact (@run_cmd_returns_stripped_stdout padding ["paddle2onnx"]
           "Paddle to ONNX conversion failed" [] [] padded_output
           ltac:(reflexivity) ltac:(reflexivity)).
Defined.

(** ** [extract_tar]: which directory an archive name stands for *)

Lemma rfind_last_separator (c : ascii) (base ext : string) :
  rfind c ext = None ->
  rfind c (base ++ String c ext) = Some (String.length base).
Proof.
  intros Hext. induction base as [|a b IH]; cbn [append rfind String.length].
  - rewrite Hext, Ascii.eqb_refl. reflexivity.
  - rewrite IH. reflexivity.
Qed.

Lemma substring_prefix (base rest : string) :
  substring 0 (String.length base) (base ++ rest) = base.
Proof.
  induction base as [|a b IH]; cbn [append String.length substring].
  - destruct rest; reflexivity.
  - now rewrite IH.
Qed.

(** [stem] drops the last suffix and nothing more. *)
Lemma stem_of_suffixed (p : Path) (base ext : string) :
  name p = base ++ "." ++ ext ->
  base <> "" -> ext <> "" -> rfind "." ext = None ->
  stem p = base.
Proof.
  intros Hname Hbase Hext Hdot. unfold stem. rewrite Hname.
  change (base ++ "." ++ ext) with (base ++ String "." ext).
  rewrite rfind_last_separator by exact Hdot.
  rewrite length_append. cbn [String.length].
  assert (0 < String.length base)%nat by (destruct base; [congruence | cbn; lia]).
  assert (0 < String.length ext)%nat by (destruct ext; [congruence | cbn; lia]).
  destruct (Nat.ltb_spec 0 (String.length base)); [|lia].
  destruct (Nat.ltb_spec (String.length base)
              (String.length base + S (String.length ext) - 1)); [|lia].
  cbn [andb]. apply substring_prefix.
Qed.

Lemma stem_without_suffix (p : Path) : rfind "." (name p) = None -> stem p = name p.
Proof. intros H. unfold stem. now rewrite H. Qed.

(** X2: for an archive named [base.ext], where [ext] is not empty and holds no
    dot and [base] is not empty, the model directory is [dest / base]: only
    the last suffix is dropped, so [model.tar.gz] stands for the directory
    [model.tar]; [extract_tar] looks for that directory and, whenever it
    returns, returns it. *)
Theorem extract_tar_drops_last_suffix_only {P : Platform}
  (tar_path dest : Path) (base ext : string) (w : World) :
  name tar_path = base ++ "." ++ ext ->
  base <> "" -> ext <> "" -> rfind "." ext = None ->
  stem tar_path = base /\
  (pathlib_exists w (dest // base) = inr true ->
   extract_tar tar_path dest w =
     (Ok (dest // base), w, [Log ("Already extracted: " ++ base)])) /\
  (forall p, result_of (extract_tar tar_path dest w) = Ok p -> p = dest // base).
Proof.
  intros Hname Hbase Hext Hdot.
  pose proof (stem_of_suffixed tar_path base ext Hname Hbase Hext Hdot) as S.
  split; [exact S|]. split.
  - intros Hx. rewrite extract_tar_eq. cbv zeta. rewrite S, Hx. reflexivity.
  - intros p Hp. destruct (extract_tar_result tar_path dest w) as [R|[e R]];
      rewrite R in Hp; [|discriminate].
    rewrite S in Hp. now injection Hp.
Qed.

Lemma extract_tar_drops_last_suffix_only_witness :
  let tar_path := mkPath "/" ["srv"; "model.tar.gz"] in
  let dest := mkPath "/" ["srv"] in
  name tar_path = "model.tar" ++ "." ++ "gz" /\
  stem tar_path = "model.tar" /\
  @extract_tar Toy.good tar_path dest [("/srv/model.tar", 4096)] =
    (Ok (mkPath "/" ["srv"; "model.tar"]), [("/srv/model.tar", 4096)],
     [Log "Already extracted: model.tar"]).
Proof.
  cbv zeta. split; [reflexivity|].
  destruct (@extract_tar_drops_last_suffix_only Toy.good
              (mkPath "/" ["srv"; "model.tar.gz"]) (mkPath "/" ["srv"])
              "model.tar" "gz" [("/srv/model.tar", 4096)]
              ltac:(reflexivity) ltac:(discriminate) ltac:(discriminate)
              ltac:(reflexivity)) as (H1 & H2 & _).
  split; [exact H1|]. exact (H2 ltac:(reflexivity)).
Defined.

(** X3: an archive whose name has no suffix stands for itself: when such an
    archive lies in the destination directory and exists, [extract_tar] takes
    it for the extracted directory, extracts nothing, leaves the world as it
    is and returns the archive's own path. *)
Theorem extract_tar_takes_suffixless_archive_for_directory {P : Platform}
  (tar_path dest : Path) (w : World) :
  rfind "." (name tar_path) = None ->
  tar_path = dest // name tar_path ->
  pathlib_exists w tar_path = inr true ->
  extract_tar tar_path dest w =
    (Ok tar_path, w, [Log ("Already extracted: " ++ name tar_path)]) /\
  extractions (trace_of (extract_tar tar_path dest w)) = 0%nat.
Proof.
  intros Hdot Hin Hx.
  assert (E : extract_tar tar_path dest w =
    (Ok tar_path, w, [Log ("Already extracted: " ++ name tar_path)])).
  { rewrite extract_tar_eq. cbv zeta. rewrite (stem_without_suffix _ Hdot), <- Hin, Hx.
    reflexivity. }
  split; [exact E|]. rewrite E. reflexivity.
Qed.

Lemma extract_tar_takes_suffixless_archive_for_directory_witness :
  let tar_path := mkPath "/" ["srv"; "det_infer"] in
  let dest := mkPath "/" ["srv"] in
  @pathlib_exists Toy.good [("/srv/det_infer", 4915200)] tar_path = inr true /\
  @extract_tar Toy.good tar_path dest [("/srv/det_infer", 4915200)] =
    (Ok tar_path, [("/srv/det_infer", 4915200)], [Log "Already extracted: det_infer"]).
Proof.
  cbv zeta. split; [reflexivity|].
  exact (proj1 (@extract_tar_takes_suffixless_archive_for_directory Toy.good
                  (mkPath "/" ["srv"; "det_infer"]) (mkPath "/" ["srv"])
                  [("/srv/det_infer", 4915200)]
                  ltac:(reflexivity) ltac:(reflexivity) ltac:(reflexivity))).
Defined.

(** ** Everything a run may do *)

Section Events.

Context {P : Platform}.

Lemma value_info_entries_extractions (vs : list (ValueInfoProto TypeProto)) :
  extractions (value_info_entries vs) = 0%nat.
Proof. induction vs as [|v vs IH]; [reflexivity | exact IH]. Qed.

Lemma value_info_entries_loads (vs : list (ValueInfoProto TypeProto)) :
  loads (value_info_entries vs) = [].
Proof. induction vs as [|v vs IH]; [reflexivity | exact IH]. Qed.

Lemma loads_app (t u : list Event) : loads (t ++ u) = (loads t ++ loads u)%list.
Proof.
  induction t as [|ev t IH]; simpl; [reflexivity|].
  destruct ev; simpl; rewrite IH; reflexivity.
Qed.

Lemma extract_tar_conversion_events (tar_path output_onnx : Path) (kind : string)
  (w : World) (ev : Event) :
  In ev (trace_of (extract_tar tar_path MODEL_DIR w)) ->
  conversion_event tar_path output_onnx kind ev.
Proof.
  intros H. apply extract_tar_events in H.
  destruct H as [->|[->|[->|[->| ->]]]]; constructor.
Qed.

Lemma paddle_to_onnx_conversion_events (tar_path output_onnx : Path) (kind : string)
  (w : World) (ev : Event) :
  In ev (trace_of (paddle_to_onnx (MODEL_DIR // stem tar_path) output_onnx w)) ->
  conversion_event tar_path output_onnx kind ev.
Proof.
  rewrite paddle_to_onnx_eq. cbv zeta.
  destruct (subprocess_run _ w) as [[e|result] w'].
  - intros [<-|[<-|[]]]; constructor.
  - destruct (returncode result =? 0).
    + destruct (os_stat w' output_onnx) as [e|n].
      * intros [<-|[<-|[]]]; constructor.
      * intros [<-|[<-|[<-|[]]]]; constructor.
    + intros [<-|[<-|[]]]; constructor.
Qed.

Lemma validate_onnx_conversion_events (tar_path output_onnx : Path) (kind : string)
  (w : World) (ev : Event) :
  In ev (trace_of (validate_onnx output_onnx w)) ->
  conversion_event tar_path output_onnx kind ev.
Proof.
  rewrite validate_onnx_eq. cbv zeta.
  assert (Hentry : forall vs, In ev (value_info_entries vs) ->
                              conversion_event tar_path output_onnx kind ev).
  { intros vs H. unfold value_info_entries in H. apply in_map_iff in H.
    destruct H as (v & <- & _). constructor. }
  destruct (onnx_load w _) as [e|model].
  - intros [<-|[<-|[<-|[]]]]; constructor.
  - destruct (check_model model) as [e|].
    + intros [<-|[<-|[<-|[<-|[]]]]]; constructor.
    + cbn [trace_of snd app]. intros [<-|[<-|[<-|[<-|[<-|H]]]]]; try constructor.
      apply in_app_or in H. destruct H as [H|[<-|H]];
        [exact (Hentry _ H) | constructor | exact (Hentry _ H)].
Qed.

(** Every event of a conversion is one of those listed. *)
Lemma convert_models_events (tar_path output_onnx : Path) (kind : string)
  (w : World) (ev : Event) :
  In ev (trace_of (convert_models tar_path output_onnx kind w)) ->
  conversion_event tar_path output_onnx kind ev.
Proof.
  rewrite convert_models_eq.
  pose proof (extract_tar_conversion_events tar_path output_onnx kind w ev) as Hx.
  pose proof (extract_tar_result tar_path MODEL_DIR w) as Rx.
  destruct (extract_tar tar_path MODEL_DIR w) as [[[d|e|c] w1] t1];
    cbn [trace_of result_of fst snd] in *.
  - destruct Rx as [Rx|[e Rx]]; [injection Rx as ->|discriminate].
    pose proof (paddle_to_onnx_conversion_events tar_path output_onnx kind w1 ev) as Hp.
    destruct (paddle_to_onnx _ output_onnx w1) as [[[u|e|c] w2] t2];
      cbn [trace_of snd] in *.
    + pose proof (validate_onnx_conversion_events tar_path output_onnx kind w2 ev) as Hv.
      destruct (validate_onnx output_onnx w2) as [[r w3] t3]. cbn [trace_of snd] in *.
      intros [<-|H]; [constructor|].
      apply in_app_or in H. destruct H as [H|H]; [now apply Hx|].
      apply in_app_or in H. destruct H as [H|H]; [now apply Hp | now apply Hv].
    + intros [<-|H]; [constructor|].
      apply in_app_or in H. destruct H as [H|H]; [now apply Hx | now apply Hp].
    + intros [<-|H]; [constructor|].
      apply in_app_or in H. destruct H as [H|H]; [now apply Hx | now apply Hp].
  - intros [<-|H]; [constructor | now apply Hx].
  - intros [<-|H]; [constructor | now apply Hx].
Qed.

(** Every event of a run: the header, the events of the two conversions, the
    line of the handler, the three closing lines. *)
Lemma main_events (w : World) (ev : Event) :
  In ev (trace_of (main w)) ->
  ev = header w \/
  conversion_event DET_TAR DET_ONNX "Detection" ev \/
  conversion_event REC_TAR REC_ONNX "Recognition" ev \/
  (exists e, ev = conversion_failed e) \/
  In ev closing.
Proof.
  rewrite main_eq.
  pose proof (convert_models_events DET_TAR DET_ONNX "Detection" w ev) as H1.
  destruct (convert_models DET_TAR DET_ONNX "Detection" w) as [[[u|e|c] w1] t1];
    cbn [trace_of snd] in *.
  - pose proof (convert_models_events REC_TAR REC_ONNX "Recognition" w1 ev) as H2.
    destruct (convert_models REC_TAR REC_ONNX "Recognition" w1) as [[[u'|e|c] w2] t2];
      cbn [trace_of snd] in *; intros [<-|H]; try (now left);
      apply in_app_or in H; destruct H as [H|H]; try (right; left; now apply H1).
    + apply in_app_or in H. destruct H as [H|H]; [right; right; left; now apply H2|].
      right; right; right; right. exact H.
    + apply in_app_or in H. destruct H as [H|H]; [right; right; left; now apply H2|].
      destruct H as [<-|[]]. right; right; right; left. now exists e.
    + right; right; left. now apply H2.
  - intros [<-|H]; [now left|].
    apply in_app_or in H. destruct H as [H|[<-|[]]]; [right; left; now apply H1|].
    right; right; right; left. now exists e.
  - intros [<-|H]; [now left | right; left; now apply H1].
Qed.

(** One conversion extracts at most once. *)
Lemma convert_models_extractions (tar_path output_onnx : Path) (kind : string) (w : World) :
  (extractions (trace_of (convert_models tar_path output_onnx kind w)) <= 1)%nat.
Proof.
  rewrite convert_models_eq.
  assert (Hx : (extractions (trace_of (extract_tar tar_path MODEL_DIR w)) <= 1)%nat).
  { rewrite extract_tar_eq. cbv zeta.
    destruct (pathlib_exists w _) as [e|[|]]; [cbn; lia | cbn; lia |].
    destruct (tarfile_open w tar_path) as [e|tar]; [cbn; lia|].
    destruct (tarfile_extractall tar MODEL_DIR w) as [[e|] w']; cbn; lia. }
  assert (Hp : forall d w1, extractions (trace_of (paddle_to_onnx d output_onnx w1)) = 0%nat).
  { intros d w1. rewrite paddle_to_onnx_eq. cbv zeta.
    destruct (subprocess_run _ w1) as [[e|result] w']; [reflexivity|].
    destruct (returncode result =? 0); [|reflexivity].
    destruct (os_stat w' output_onnx); reflexivity. }
  assert (Hv : forall w2, extractions (trace_of (validate_onnx output_onnx w2)) = 0%nat).
  { intros w2. rewrite validate_onnx_eq. cbv zeta.
    destruct (onnx_load w2 _) as [e|model]; [reflexivity|].
    destruct (check_model model); [reflexivity|].
    cbn [trace_of snd app extractions].
    rewrite extractions_app, value_info_entries_extractions. cbn [app extractions].
    apply value_info_entries_extractions. }
  destruct (extract_tar tar_path MODEL_DIR w) as [[[d|e|c] w1] t1];
    cbn [trace_of snd] in *; [|exact Hx|exact Hx].
  specialize (Hp d w1).
  destruct (paddle_to_onnx d output_onnx w1) as [[[u|e|c] w2] t2];
    cbn [trace_of snd] in *.
  - specialize (Hv w2).
    destruct (validate_onnx output_onnx w2) as [[r w3] t3]. cbn [trace_of snd] in *.
    cbn [extractions]. rewrite !extractions_app. lia.
  - cbn [extractions]. rewrite !extractions_app. lia.
  - cbn [extractions]. rewrite !extractions_app. lia.
Qed.

(** A conversion loads its output file once when it returns, never else. *)
Lemma convert_models_loads (tar_path output_onnx : Path) (kind : string) (w : World) :
  loads (trace_of (convert_models tar_path output_onnx kind w)) =
  match result_of (convert_models tar_path output_onnx kind w) with
  | Ok _ => [path_str output_onnx]
  | _ => []
  end.
Proof.
  rewrite convert_models_eq.
  assert (Hx : loads (trace_of (extract_tar tar_path MODEL_DIR w)) = []).
  { rewrite extract_tar_eq. cbv zeta.
    destruct (pathlib_exists w _) as [e|[|]]; try reflexivity.
    destruct (tarfile_open w tar_path) as [e|tar]; [reflexivity|].
    destruct (tarfile_extractall tar MODEL_DIR w) as [[e|] w']; reflexivity. }
  assert (Hp : forall d w1, loads (trace_of (paddle_to_onnx d output_onnx w1)) = []).
  { intros d w1. rewrite paddle_to_onnx_eq. cbv zeta.
    destruct (subprocess_run _ w1) as [[e|result] w']; [reflexivity|].
    destruct (returncode result =? 0); [|reflexivity].
    destruct (os_stat w' output_onnx); reflexivity. }
  assert (Hv : forall w2, loads (trace_of (validate_onnx output_onnx w2)) =
                          [path_str output_onnx] /\
                          result_of (validate_onnx output_onnx w2) = Ok tt).
  { intros w2. rewrite validate_onnx_eq. cbv zeta.
    destruct (onnx_load w2 _) as [e|model]; [now split|].
    destruct (check_model model); [now split|]. split; [|reflexivity].
    cbn [trace_of snd app loads].
    rewrite loads_app, value_info_entries_loads. cbn [app loads].
    now rewrite value_info_entries_loads. }
  destruct (extract_tar tar_path MODEL_DIR w) as [[[d|e|c] w1] t1];
    cbn [trace_of result_of fst snd] in *; [|exact Hx|exact Hx].
  specialize (Hp d w1).
  destruct (paddle_to_onnx d output_onnx w1) as [[[u|e|c] w2] t2];
    cbn [trace_of snd] in *.
  - destruct (Hv w2) as [L R].
    destruct (validate_onnx output_onnx w2) as [[r w3] t3].
    cbn [trace_of result_of fst snd] in *. subst r.
    cbn [loads]. rewrite !loads_app, Hx, Hp, L. reflexivity.
  - cbn [loads fst]. rewrite !loads_app, Hx, Hp. reflexivity.
  - cbn [loads fst]. rewrite !loads_app, Hx, Hp. reflexivity.
Qed.

End Events.

(** ** [main]: the files it touches *)

(** X4: a run opens no archive but the two model archives, extracts into no
    directory but the models directory, loads no file but the two output
    files, and extracts, starts a process and loads a model at most twice
    each. *)
Theorem main_touches_only_its_files {P : Platform} (w : World) :
  (forall p, In (TarOpen p) (trace_of (main w)) -> p = DET_TAR \/ p = REC_TAR) /\
  (forall d, In (TarExtractAll d) (trace_of (main w)) -> d = MODEL_DIR) /\
  (forall f, In (OnnxLoad f) (trace_of (main w)) ->
             f = path_str DET_ONNX \/ f = path_str REC_ONNX) /\
  (extractions (trace_of (main w)) <= 2)%nat /\
  (length (commands (trace_of (main w))) <= 2)%nat /\
  (length (loads (trace_of (main w))) <= 2)%nat.
Proof.
  split; [|split; [|split]].
  - intros p H. apply main_events in H.
    destruct H as [H|[H|[H|[[e H]|H]]]].
    + discriminate.
    + inversion H. now left.
    + inversion H. now right.
    + discriminate.
    + destruct H as [H|[H|[H|[]]]]; discriminate.
  - intros d H. apply main_events in H.
    destruct H as [H|[H|[H|[[e H]|H]]]].
    + discriminate.
    + now inversion H.
    + now inversion H.
    + discriminate.
    + destruct H as [H|[H|[H|[]]]]; discriminate.
  - intros f H. apply main_events in H.
    destruct H as [H|[H|[H|[[e H]|H]]]].
    + discriminate.
    + inversion H. now left.
    + inversion H. now right.
    + discriminate.
    + destruct H as [H|[H|[H|[]]]]; discriminate.
  - rewrite main_eq.
    pose proof (convert_models_extractions DET_TAR DET_ONNX "Detection" w) as X1.
    pose proof (convert_models_commands DET_TAR DET_ONNX "Detection" w) as C1.
    pose proof (convert_models_loads DET_TAR DET_ONNX "Detection" w) as L1.
    destruct (convert_models DET_TAR DET_ONNX "Detection" w) as [[[u|e|c] w1] t1];
      cbn [trace_of result_of fst snd] in *.
    + pose proof (convert_models_extractions REC_TAR REC_ONNX "Recognition" w1) as X2.
      pose proof (convert_models_commands REC_TAR REC_ONNX "Recognition" w1) as C2.
      pose proof (convert_models_loads REC_TAR REC_ONNX "Recognition" w1) as L2.
      destruct (convert_models REC_TAR REC_ONNX "Recognition" w1) as [[[u'|e|c] w2] t2];
        cbn [trace_of result_of fst snd] in *;
        unfold header; cbn [extractions commands loads];
        rewrite ?extractions_app, ?commands_app, ?loads_app, ?length_app, L1, L2;
        cbn [extractions commands loads closing conversion_failed length];
        (destruct C1 as [C1|C1]; rewrite C1);
        (destruct C2 as [C2|C2]; rewrite C2); cbn [length]; repeat split; lia.
    + unfold header; cbn [extractions commands loads].
      rewrite ?extractions_app, ?commands_app, ?loads_app, ?length_app, L1.
      cbn [extractions commands loads conversion_failed length].
      destruct C1 as [C1|C1]; rewrite C1; cbn [length]; repeat split; lia.
    + unfold header; cbn [extractions commands loads]. rewrite L1.
      destruct C1 as [C1|C1]; rewrite C1; cbn [length]; repeat split; lia.
Qed.

(** ** [main]: what the log says about the outcome *)

Lemma get_first_append (s rest : string) (c : ascii) :
  String.get 0 s = Some c -> String.get 0 (s ++ rest) = Some c.
Proof. destruct s; [discriminate | exact (fun H => H)]. Qed.

Ltac differ_at H n :=
  apply (f_equal (String.get n)) in H;
  unfold banner, nl, saved_message in H; cbn in H; discriminate.

(** No line of a conversion reads as the closing line of a run. *)
Lemma conversion_never_logs_complete {P : Platform}
  (tar_path output_onnx : Path) (kind : string) :
  ~ conversion_event tar_path output_onnx kind (Log (nl ++ "Conversion complete!")).
Proof.
  intros H. inversion H as [E|E|E|E|E|E|E|E|n E|E|E|E|E|E|E|v E|e E];
    first [differ_at E 0%nat | differ_at E 1%nat].
Qed.

(** No line of a conversion reads as the line of [main]'s handler, when the
    output file's name does not start with a capital C. *)
Lemma conversion_never_logs_failure {P : Platform}
  (tar_path output_onnx : Path) (kind : string) (c : ascii) (e : PyException) :
  String.get 0 (name output_onnx) = Some c -> c <> "C"%char ->
  ~ conversion_event tar_path output_onnx kind (conversion_failed e).
Proof.
  intros Hc Hne H. unfold conversion_failed in H.
  inversion H as [E|E|E|E|E|E|E|E|n E|E|E|E|E|E|E|v E|e' E];
    try (first [differ_at E 0%nat | differ_at E 1%nat]).
  apply (f_equal (String.get 0)) in E.
  rewrite (get_first_append _ _ c Hc) in E. cbn in E. congruence.
Qed.

(** X5: the log tells how the run ended: the line ["Conversion complete!"] is
    logged exactly when the exit status is 0, and a line ["[ERROR] Conversion
    failed: ..."] exactly when it is 1. *)
Theorem log_tells_the_outcome {P : Platform} (w : World) :
  (In (Log (nl ++ "Conversion complete!")) (trace_of (main w)) <->
   exit_status (result_of (main w)) = 0) /\
  ((exists e, In (conversion_failed e) (trace_of (main w))) <->
   exit_status (result_of (main w)) = 1).
Proof.
  assert (ND : forall e ev, conversion_event DET_TAR DET_ONNX "Detection" ev ->
                            ev <> conversion_failed e).
  { intros e ev H ->. revert H.
    apply (conversion_never_logs_failure _ _ _ "d"%char);
      [now rewrite name_DET_ONNX | discriminate]. }
  assert (NR : forall e ev, conversion_event REC_TAR REC_ONNX "Recognition" ev ->
                            ev <> conversion_failed e).
  { intros e ev H ->. revert H.
    apply (conversion_never_logs_failure _ _ _ "r"%char);
      [now rewrite name_REC_ONNX | discriminate]. }
  pose proof (main_events w) as EV. rewrite main_eq in *.
  pose proof (convert_models_no_exit DET_TAR DET_ONNX "Detection" w) as N1.
  pose proof (convert_models_events DET_TAR DET_ONNX "Detection" w) as E1.
  destruct (convert_models DET_TAR DET_ONNX "Detection" w) as [[[u|e|c] w1] t1];
    cbn [trace_of result_of fst snd] in *; [| |now elim (N1 c)].
  - pose proof (convert_models_no_exit REC_TAR REC_ONNX "Recognition" w1) as N2.
    pose proof (convert_models_events REC_TAR REC_ONNX "Recognition" w1) as E2.
    destruct (convert_models REC_TAR REC_ONNX "Recognition" w1) as [[[u'|e|c] w2] t2];
      cbn [trace_of result_of fst snd exit_status] in *; [| |now elim (N2 c)].
    + split; split; try discriminate.
      * reflexivity.
      * intros _. right. apply in_or_app. right. apply in_or_app. right. now left.
      * intros [e H]. exfalso. destruct (EV _ H) as [X|[X|[X|[[e' X]|X]]]].
        -- discriminate.
        -- exact (ND e _ X eq_refl).
        -- exact (NR e _ X eq_refl).
        -- destruct H as [H|H]; [discriminate|].
           apply in_app_or in H. destruct H as [H|H]; [exact (ND e _ (E1 _ H) eq_refl)|].
           apply in_app_or in H. destruct H as [H|H]; [exact (NR e _ (E2 _ H) eq_refl)|].
           destruct H as [H|[H|[H|[]]]]; discriminate.
        -- destruct X as [X|[X|[X|[]]]]; discriminate.
    + split; split; try discriminate; try reflexivity.
      * intros [H|H]; [discriminate|]. exfalso.
        apply in_app_or in H. destruct H as [H|H];
          [exact (conversion_never_logs_complete _ _ _ (E1 _ H))|].
        apply in_app_or in H. destruct H as [H|[H|[]]];
          [exact (conversion_never_logs_complete _ _ _ (E2 _ H)) | discriminate].
      * intros _. exists e. right. apply in_or_app. right. apply in_or_app. right.
        now left.
  - cbn [exit_status]. split; split; try discriminate; try reflexivity.
    + intros [H|H]; [discriminate|]. exfalso.
      apply in_app_or in H. destruct H as [H|[H|[]]];
        [exact (conversion_never_logs_complete _ _ _ (E1 _ H)) | discriminate].
    + intros _. exists e. right. apply in_or_app. right. now left.
Qed.

(** ** [main]: errors of the first conversion, whatever their cause *)

(** X6: whatever makes the Detection conversion raise (the existence test, the
    archive, the converter, the size of its output), [main] logs the error as
    its last line and exits with status 1 in the world the failing step left;
    nothing of the Recognition conversion happens: no banner, no opening of
    its archive; no model is loaded, and at most the Detection converter has
    run. *)
Theorem any_detection_error_aborts_run {P : Platform} (w : World) (e : PyException) :
  result_of (convert_models DET_TAR DET_ONNX "Detection" w) = Raise e ->
  let first := convert_models DET_TAR DET_ONNX "Detection" w in
  main w =
    (Exit 1, world_of first,
     (header w :: trace_of first ++ [conversion_failed e])%list) /\
  ~ In (Log (banner "Recognition")) (trace_of (main w)) /\
  ~ In (TarOpen REC_TAR) (trace_of (main w)) /\
  loads (trace_of (main w)) = [] /\
  (commands (trace_of (main w)) = [] \/
   commands (trace_of (main w)) =
     [paddle2onnx_cmd (MODEL_DIR // stem DET_TAR) DET_ONNX]).
Proof.
  intros He first.
  pose proof (convert_models_events DET_TAR DET_ONNX "Detection" w) as EV.
  pose proof (convert_models_loads DET_TAR DET_ONNX "Detection" w) as L.
  pose proof (convert_models_commands DET_TAR DET_ONNX "Detection" w) as C.
  assert (Hmain : main w =
    (Exit 1, world_of first, (header w :: trace_of first ++ [conversion_failed e])%list)).
  { rewrite main_eq. subst first.
    destruct (convert_models DET_TAR DET_ONNX "Detection" w) as [[[u|e'|c] w1] t1];
      cbn [result_of fst] in He; try discriminate.
    injection He as ->. reflexivity. }
  split; [exact Hmain|]. rewrite Hmain. subst first. cbn [trace_of snd].
  rewrite He in L.
  split; [|split; [|split]].
  - intros [H|H]; [discriminate|].
    apply in_app_or in H. destruct H as [H|[H|[]]]; [|discriminate].
    apply EV in H.
    pose proof (banner_starts_with_newline "Recognition") as B.
    inversion H as [E|E|E|E|E|E|E|E|n E|E|E|E|E|E|E|v E|e' E];
      try (rewrite <- E in B; unfold saved_message in B; cbn in B; discriminate);
      try (now apply banner_Detection_neq_Recognition).
  - intros [H|H]; [discriminate|].
    apply in_app_or in H. destruct H as [H|[H|[]]]; [|discriminate].
    apply EV in H. apply DET_TAR_neq_REC_TAR.
    remember (TarOpen REC_TAR) as ev eqn:Hev. destruct H; try discriminate.
    congruence.
  - unfold header. cbn [loads]. rewrite loads_app, L. reflexivity.
  - unfold header. cbn [commands]. rewrite commands_app.
    cbn [commands conversion_failed]. rewrite app_nil_r. exact C.
Qed.

Lemma any_detection_error_aborts_run_witness :
  result_of (@convert_models Toy.silent (@DET_TAR Toy.silent) (@DET_ONNX Toy.silent)
               "Detection" Toy.fresh_disk)
    = Raise (Toy.no_such_file "/app/output/det.onnx") /\
  result_of (@main Toy.silent Toy.fresh_disk) = Exit 1 /\
  ~ In (Log (banner "Recognition")) (trace_of (@main Toy.silent Toy.fresh_disk)) /\
  loads (trace_of (@main Toy.silent Toy.fresh_disk)) = [].
Proof.
  split; [reflexivity|].
  destruct (@any_detection_error_aborts_run Toy.silent Toy.fresh_disk
              (Toy.no_such_file "/app/output/det.onnx") ltac:(reflexivity))
    as (H1 & H2 & _ & H3 & _).
  split; [now rewrite H1|]. split; [exact H2 | exact H3].
Defined.

(** X7: when the extraction of the Detection archive raises, no converter
    process is ever started and no model is loaded; the run ends with status
    1, its last event being the line that reports the error.  When it is the
    opening of the archive that failed, nothing was extracted and the world is
    the one the run started in. *)
Theorem failed_extraction_starts_no_process {P : Platform} (w : World) (e : PyException) :
  result_of (extract_tar DET_TAR MODEL_DIR w) = Raise e ->
  result_of (main w) = Exit 1 /\
  commands (trace_of (main w)) = [] /\
  loads (trace_of (main w)) = [] /\
  last (trace_of (main w)) (Log "") = conversion_failed e /\
  (forall e', pathlib_exists w (MODEL_DIR // stem DET_TAR) = inr false ->
     tarfile_open w DET_TAR = inl e' ->
     e' = e /\ world_of (main w) = w /\ extractions (trace_of (main w)) = 0%nat).
Proof.
  intros Hx.
  pose proof (extract_tar_commands DET_TAR MODEL_DIR w) as C.
  assert (Hc : convert_models DET_TAR DET_ONNX "Detection" w =
    (Raise e, world_of (extract_tar DET_TAR MODEL_DIR w),
     Log (banner "Detection") :: trace_of (extract_tar DET_TAR MODEL_DIR w))).
  { rewrite convert_models_eq.
    destruct (extract_tar DET_TAR MODEL_DIR w) as [[[d|e'|c] w1] t1];
      cbn [result_of fst] in Hx; try discriminate.
    injection Hx as ->. reflexivity. }
  rewrite main_eq, Hc. cbn [result_of world_of trace_of fst snd].
  split; [reflexivity|]. split; [|split; [|split]].
  - unfold header. cbn [app commands]. rewrite commands_app, C. reflexivity.
  - unfold header. cbn [app loads]. rewrite loads_app.
    assert (L : loads (trace_of (extract_tar DET_TAR MODEL_DIR w)) = []).
    { rewrite extract_tar_eq. cbv zeta.
      destruct (pathlib_exists w _) as [e0|[|]]; try reflexivity.
      destruct (tarfile_open w DET_TAR) as [e0|tar]; [reflexivity|].
      destruct (tarfile_extractall tar MODEL_DIR w) as [[e0|] w']; reflexivity. }
    rewrite L. reflexivity.
  - change (header w :: (Log (banner "Detection") :: ?t) ++ [?x])%list
      with ((header w :: Log (banner "Detection") :: t) ++ [x])%list.
    apply last_snoc.
  - intros e' Hex Hopen. rewrite extract_tar_eq in Hx |- *. cbv zeta in Hx |- *.
    rewrite Hex, Hopen in Hx |- *. cbn [result_of world_of trace_of fst snd] in Hx |- *.
    injection Hx as ->. repeat split.
Qed.

Lemma failed_extraction_starts_no_process_witness :
  result_of (@extract_tar Toy.good (@DET_TAR Toy.good) (@MODEL_DIR Toy.good) [])
    = Raise (Toy.no_such_file Toy.det_tar) /\
  result_of (@main Toy.good []) = Exit 1 /\
  commands (trace_of (@main Toy.good [])) = [] /\
  world_of (@main Toy.good []) = [].
Proof.
  split; [reflexivity|].
  destruct (@failed_extraction_starts_no_process Toy.good []
              (Toy.no_such_file Toy.det_tar) ltac:(reflexivity))
    as (H1 & H2 & _ & _ & H3).
  split; [exact H1|]. split; [exact H2|].
  exact (proj1 (proj2 (H3 (Toy.no_such_file Toy.det_tar)
                         ltac:(reflexivity) ltac:(reflexivity)))).
Defined.

(** ** Validation is diagnostic only *)




(** X9: in one conversion the output file is handed to [onnx.load] exactly
    once when the conversion returns and never when it raises; and it returns
    exactly when its extraction step and its converter step have returned. *)
Theorem validation_follows_conversion {P : Platform}
  (tar_path output_onnx : Path) (kind : string) (w : World) :
  loads (trace_of (convert_models tar_path output_onnx kind w)) =
    match result_of (convert_models tar_path output_onnx kind w) with
    | Ok _ => [path_str output_onnx]
    | _ => []
    end /\
  (result_of (convert_models tar_path output_onnx kind w) = Ok tt <->
   exists paddle_dir w1 t1 w2 t2,
     extract_tar tar_path MODEL_DIR w = (Ok paddle_dir, w1, t1) /\
     paddle_to_onnx paddle_dir output_onnx w1 = (Ok tt, w2, t2)).
Proof.
  split; [apply convert_models_loads|].
  rewrite convert_models_result.
  destruct (extract_tar tar_path MODEL_DIR w) as [[[d|e|c] w1] t1].
  - destruct (paddle_to_onnx d output_onnx w1) as [[[[]|e|c] w2] t2] eqn:E;
      cbn [result_of fst]; split; try discriminate.
    + intros _. now exists d, w1, t1, w2, t2.
    + reflexivity.
    + intros (d' & w1' & t1' & w2' & t2' & H & H'). injection H as <- <- <-.
      rewrite E in H'. discriminate.
    + intros (d' & w1' & t1' & w2' & t2' & H & H'). injection H as <- <- <-.
      rewrite E in H'. discriminate.
  - split; [discriminate|]. intros (d' & w1' & t1' & w2' & t2' & H & _). discriminate.
  - split; [discriminate|]. intros (d' & w1' & t1' & w2' & t2' & H & _). discriminate.
Qed.

(** ** The size line: small files and order *)

Lemma round_half_even_scale (a b c : Z) :
  0 < b -> 0 < c -> round_half_even (a * c) (b * c) = round_half_even a b.
Proof.
  intros Hb Hc. unfold round_half_even.
  rewrite Z.div_mul_cancel_r, Z.mul_mod_distr_r by lia.
  pose proof (Z.mod_pos_bound a b Hb) as B.
  destruct (Z.ltb_spec (2 * (a mod b * c)) (b * c)), (Z.ltb_spec (2 * (a mod b)) b);
    try nia; try reflexivity.
  destruct (Z.ltb_spec (b * c) (2 * (a mod b * c))), (Z.ltb_spec b (2 * (a mod b)));
    try nia; reflexivity.
Qed.

Lemma round_half_even_monotone (a b d : Z) :
  0 < d -> a <= b -> round_half_even a d <= round_half_even b d.
Proof.
  intros Hd Hab. unfold round_half_even.
  pose proof (Z.div_mod a d ltac:(lia)) as Da.
  pose proof (Z.div_mod b d ltac:(lia)) as Db.
  pose proof (Z.mod_pos_bound a d Hd) as Ba.
  pose proof (Z.mod_pos_bound b d Hd) as Bb.
  pose proof (Z.div_le_mono a b d Hd Hab) as Q.
  destruct (Z.eq_dec (a / d) (b / d)) as [E|NE].
  - rewrite <- E in *. assert (a mod d <= b mod d) by lia.
    destruct (Z.ltb_spec (2 * (a mod d)) d), (Z.ltb_spec (2 * (b mod d)) d); try lia;
      destruct (Z.ltb_spec d (2 * (a mod d))), (Z.ltb_spec d (2 * (b mod d))); try lia;
      destruct (Z.even (a / d)); lia.
  - assert (a / d + 1 <= b / d) by lia.
    destruct (Z.ltb_spec (2 * (a mod d)) d), (Z.ltb_spec (2 * (b mod d)) d);
      destruct (Z.ltb_spec d (2 * (a mod d))), (Z.ltb_spec d (2 * (b mod d)));
      destruct (Z.even (a / d)), (Z.even (b / d)); lia.
Qed.

(** Below [2**53] bytes the division is exact, so the hundredths logged are
    the size in MiB rounded once. *)
Lemma hundredths_of_size (n : Z) :
  0 <= n < 2 ^ 53 ->
  hundredths (int_true_div n (1024 ^ 2)) = round_half_even (100 * n) (2 ^ 20).
Proof.
  intros Hn. destruct (Z.eq_dec n 0) as [->|Hz]; [reflexivity|].
  rewrite int_true_div_mebi by lia.
  pose proof (Z.log2_nonneg n) as K0.
  assert (K : Z.log2 n < 53) by (apply Z.log2_lt_pow2; lia).
  replace (n * 2 ^ (72 - Z.log2 n)) with (n * 2 ^ (52 - Z.log2 n) * 2 ^ 20)
    by (rewrite <- Z.mul_assoc, <- Z.pow_add_r by lia; do 2 f_equal; lia).
  rewrite round_half_even_exact by lia.
  unfold hundredths, scale2. cbn [mantissa exponent].
  destruct (Z.leb_spec 0 (- (Z.log2 n - 72))); [|lia].
  replace (1 * 2 ^ (- (Z.log2 n - 72))) with (2 ^ 20 * 2 ^ (52 - Z.log2 n))
    by (rewrite <- Z.pow_add_r by lia; rewrite Z.mul_1_l; f_equal; lia).
  replace (100 * (n * 2 ^ (52 - Z.log2 n))) with (100 * n * 2 ^ (52 - Z.log2 n)) by ring.
  apply round_half_even_scale; [lia | apply Z.pow_pos_nonneg; lia].
Qed.

(** X11: an output file of at most 5242 bytes, the empty file included, is
    accepted by [paddle_to_onnx]: it returns and the size it logs reads
    [0.00 MB]. *)
Theorem small_output_is_logged_as_zero {P : Platform}
  (paddle_dir onnx_out : Path) (w w1 : World) (result : CompletedProcess) (st_size : Z) :
  subprocess_run (paddle2onnx_cmd paddle_dir onnx_out) w = (inr result, w1) ->
  returncode result = 0 ->
  os_stat w1 onnx_out = inr st_size ->
  0 <= st_size <= 5242 ->
  paddle_to_onnx paddle_dir onnx_out w =
    (Ok tt, w1,
     [Log ("Converting " ++ name onnx_out ++ " to ONNX...");
      SubprocessRun (paddle2onnx_cmd paddle_dir onnx_out);
      Log ("ONNX model saved: " ++ path_str onnx_out ++ " (0.00 MB)")]).
Proof.
  intros Hrun Hcode Hstat Hsize.
  rewrite paddle_to_onnx_eq. cbv zeta. rewrite Hrun, Hcode, Hstat. cbn [Z.eqb app].
  do 4 f_equal. unfold saved_message, format_2f.
  rewrite hundredths_of_size by lia.
  assert (E : round_half_even (100 * st_size) (2 ^ 20) = 0).
  { unfold round_half_even. change (2 ^ 20) with 1048576.
    rewrite Z.div_small, Z.mod_small by lia.
    destruct (Z.ltb_spec (2 * (100 * st_size)) 1048576); [reflexivity | lia]. }
  rewrite E. reflexivity.
Qed.

Lemma small_output_is_logged_as_zero_witness :
  let P := Toy.platform Toy.well_laid Toy.succeeded (Some 0) (inr Toy.xy_model) None in
  let paddle_dir := @MODEL_DIR P // stem (@DET_TAR P) in
  0 <= 0 <= 5242 /\
  @paddle_to_onnx P paddle_dir (@DET_ONNX P) [] =
    (Ok tt, [("/app/output/det.onnx", 0)],
     [Log "Converting det.onnx to ONNX...";
      SubprocessRun (paddle2onnx_cmd paddle_dir (@DET_ONNX P));
      Log "ONNX model saved: /app/output/det.onnx (0.00 MB)"]).
Proof.
  cbv zeta. split; [lia|].
  pose (P := Toy.platform Toy.well_laid Toy.succeeded (Some 0) (inr Toy.xy_model) None).
  exact (@small_output_is_logged_as_zero P (@MODEL_DIR P // stem (@DET_TAR P))
           (@DET_ONNX P) [] [("/app/output/det.onnx", 0)] Toy.succeeded 0
           ltac:(reflexivity) ltac:(reflexivity) ltac:(reflexivity) ltac:(lia)).
Defined.

(** X12: below [2**53] bytes the number logged is the size in MiB rounded once
    to hundredths (ties to even); it never decreases when the file grows, and
    from 5243 bytes on it is at least 0.01. *)
Theorem logged_size_grows_with_the_file (n1 n2 : Z) :
  0 <= n1 -> n1 <= n2 -> n2 < 2 ^ 53 ->
  hundredths (int_true_div n1 (1024 ^ 2)) = round_half_even (100 * n1) (2 ^ 20) /\
  hundredths (int_true_div n1 (1024 ^ 2)) <= hundredths (int_true_div n2 (1024 ^ 2)) /\
  (5243 <= n1 -> 1 <= hundredths (int_true_div n1 (1024 ^ 2))).
Proof.
  intros H0 H12 H2. rewrite !hundredths_of_size by lia.
  split; [reflexivity|]. split.
  - apply round_half_even_monotone; lia.
  - intros Hbig.
    pose proof (round_half_even_near (100 * n1) (2 ^ 20) ltac:(lia)) as R.
    change (2 ^ 20) with 1048576 in *. lia.
Qed.

Lemma logged_size_grows_with_the_file_witness :
  hundredths (int_true_div 5243 (1024 ^ 2)) = 1 /\
  hundredths (int_true_div 2621440 (1024 ^ 2)) = 250 /\
  hundredths (int_true_div 5243 (1024 ^ 2)) <= hundredths (int_true_div 2621440 (1024 ^ 2)).
Proof.
  split; [reflexivity|]. split; [reflexivity|].
  exact (proj1 (proj2 (logged_size_grows_with_the_file 5243 2621440
                         ltac:(lia) ltac:(lia) ltac:(lia)))).
Defined.

(** ** A converter that cannot be started *)

(** X13: when [subprocess.run] itself raises (the tool cannot be started),
    [run_cmd] lets that exception through as it is, whatever error message it
    was given; in [main], after the Detection archive is extracted, the run
    ends with status 1 and its last line is ["[ERROR] Conversion failed: "]
    followed by the text of that exception alone. *)
Theorem converter_that_cannot_start_aborts_run {P : Platform}
  (w w1 w2 : World) (paddle_dir : Path) (t1 : list Event) (e : PyException) :
  extract_tar DET_TAR MODEL_DIR w = (Ok paddle_dir, w1, t1) ->
  subprocess_run (paddle2onnx_cmd paddle_dir DET_ONNX) w1 = (inl e, w2) ->
  let cmd := paddle2onnx_cmd paddle_dir DET_ONNX in
  (forall error_msg, run_cmd cmd error_msg w1 = (Raise e, w2, [SubprocessRun cmd])) /\
  main w =
    (Exit 1, w2,
     (header w :: Log (banner "Detection") :: t1 ++
      [Log "Converting det.onnx to ONNX..."; SubprocessRun cmd;
       Log ("[ERROR] Conversion failed: " ++ exc_str e)])%list).
Proof.
  intros Hx Hrun cmd. split.
  - intros error_msg. rewrite run_cmd_eq. unfold cmd. rewrite Hrun. reflexivity.
  - rewrite main_eq, convert_models_eq, Hx, paddle_to_onnx_eq. cbv zeta.
    rewrite Hrun, name_DET_ONNX. unfold conversion_failed. cbn [app].
    rewrite <- app_assoc. reflexivity.
Qed.

Lemma converter_that_cannot_start_aborts_run_witness :
  let P := without_converter Toy.good no_paddle2onnx in
  result_of (@main P Toy.fresh_disk) = Exit 1 /\
  last (logged (trace_of (@main P Toy.fresh_disk))) "" =
    "[ERROR] Conversion failed: [Errno 2] No such file or directory: 'paddle2onnx'".
Proof.
  cbv zeta.
  pose (P := without_converter Toy.good no_paddle2onnx).
  pose (o := @extract_tar P (@DET_TAR P) (@MODEL_DIR P) Toy.fresh_disk).
  destruct (@converter_that_cannot_start_aborts_run P Toy.fresh_disk
              (world_of o) (world_of o) (@MODEL_DIR P // stem (@DET_TAR P)) (trace_of o)
              no_paddle2onnx ltac:(reflexivity) ltac:(reflexivity)) as [_ H].
  split; [exact (f_equal result_of H)|].
  exact (f_equal (fun o => last (logged (trace_of o)) "") H).
Defined.

(** ** Running again *)

Section NoArchive.

Context {P : Platform}.

Lemma value_info_entries_no_archive (vs : list (ValueInfoProto TypeProto)) :
  filter touches_archive (value_info_entries vs) = [].
Proof. induction vs as [|v vs IH]; [reflexivity | exact IH]. Qed.

Lemma paddle_to_onnx_no_archive (paddle_dir onnx_out : Path) (w : World) :
  filter touches_archive (trace_of (paddle_to_onnx paddle_dir onnx_out w)) = [].
Proof.
  rewrite paddle_to_onnx_eq. cbv zeta.
  destruct (subprocess_run _ w) as [[e|result] w']; [reflexivity|].
  destruct (returncode result =? 0); [|reflexivity].
  destruct (os_stat w' onnx_out); reflexivity.
Qed.

Lemma validate_onnx_no_archive (onnx_file : Path) (w : World) :
  filter touches_archive (trace_of (validate_onnx onnx_file w)) = [].
Proof.
  rewrite validate_onnx_eq. cbv zeta.
  destruct (onnx_load w _) as [e|model]; [reflexivity|].
  destruct (check_model model); [reflexivity|].
  cbn [trace_of snd app filter touches_archive].
  rewrite filter_app, value_info_entries_no_archive. cbn [app filter touches_archive].
  apply value_info_entries_no_archive.
Qed.

(** A conversion that finds its model directory touches no archive. *)
Lemma convert_models_no_archive (tar_path output_onnx : Path) (kind : string) (w : World) :
  pathlib_exists w (MODEL_DIR // stem tar_path) = inr true ->
  filter touches_archive (trace_of (convert_models tar_path output_onnx kind w)) = [].
Proof.
  intros Hex. rewrite convert_models_eq, extract_tar_eq. cbv zeta. rewrite Hex.
  pose proof (paddle_to_onnx_no_archive (MODEL_DIR // stem tar_path) output_onnx w) as Np.
  destruct (paddle_to_onnx (MODEL_DIR // stem tar_path) output_onnx w)
    as [[[u|e|c] w2] t2]; cbn [trace_of snd] in *.
  - pose proof (validate_onnx_no_archive output_onnx w2) as Nv.
    destruct (validate_onnx output_onnx w2) as [[r w3] t3]. cbn [trace_of snd] in *.
    cbn [app filter touches_archive]. rewrite filter_app, Np, Nv. reflexivity.
  - cbn [app filter touches_archive]. exact Np.
  - cbn [app filter touches_archive]. exact Np.
Qed.

End NoArchive.

(** X14: a run that finds the Detection directory at its start, and the
    Recognition directory once the Detection conversion is over, opens no
    archive and extracts nothing. *)
Theorem run_on_extracted_models_touches_no_archive {P : Platform} (w : World) :
  pathlib_exists w (MODEL_DIR // stem DET_TAR) = inr true ->
  pathlib_exists (world_of (convert_models DET_TAR DET_ONNX "Detection" w))
    (MODEL_DIR // stem REC_TAR) = inr true ->
  filter touches_archive (trace_of (main w)) = [] /\
  extractions (trace_of (main w)) = 0%nat.
Proof.
  intros H1 H2.
  assert (F : filter touches_archive (trace_of (main w)) = []).
  { rewrite main_eq.
    pose proof (convert_models_no_archive DET_TAR DET_ONNX "Detection" w H1) as N1.
    destruct (convert_models DET_TAR DET_ONNX "Detection" w) as [[[u|e|c] w1] t1];
      cbn [trace_of world_of fst snd] in *.
    - pose proof (convert_models_no_archive REC_TAR REC_ONNX "Recognition" w1 H2) as N2.
      destruct (convert_models REC_TAR REC_ONNX "Recognition" w1) as [[[u'|e|c] w2] t2];
        cbn [trace_of snd] in *; unfold header; cbn [filter touches_archive];
        rewrite ?filter_app, N1, N2; reflexivity.
    - unfold header; cbn [filter touches_archive]. rewrite filter_app, N1. reflexivity.
    - unfold header; cbn [filter touches_archive]. exact N1. }
  split; [exact F|].
  revert F. generalize (trace_of (main w)). intros t.
  induction t as [|ev t IH]; [reflexivity|].
  destruct ev; cbn [filter touches_archive extractions]; try exact IH; discriminate.
Qed.

Lemma run_on_extracted_models_touches_no_archive_witness :
  let after_first_run := world_of (@main Toy.good Toy.fresh_disk) in
  extractions (trace_of (@main Toy.good Toy.fresh_disk)) = 2%nat /\
  filter touches_archive (trace_of (@main Toy.good after_first_run)) = [] /\
  extractions (trace_of (@main Toy.good after_first_run)) = 0%nat.
Proof.
  cbv zeta. split; [reflexivity|].
  exact (@run_on_extracted_models_touches_no_archive Toy.good
           (world_of (@main Toy.good Toy.fresh_disk))
           ltac:(reflexivity) ltac:(reflexivity)).
Defined.
